(** * Industrial log retrieval and insight pipeline

    A shallow embedding of [src/rag_system.py] (class [IndustrialRAGSystem])
    and of the request handlers of [src/main.py], with the properties of
    the pipeline stated over it.

    Python values are modelled as follows.
    - [str] is [string]: the UTF-8 bytes of the text.  The three keywords
      searched for are ASCII, so an ASCII keyword occurs in the text exactly
      when its bytes occur in the UTF-8 bytes; [str.lower] is modelled on the
      ASCII letters (the only code points outside ASCII whose lower case
      contains an ASCII letter are U+212A, giving "k", and U+0130, giving "i"
      followed by U+0307, and neither can take part in an occurrence of one of
      the keywords).
    - A [dict] with string keys is a [gmap string _].
    - An exception is a value of [Exn]; a call that may raise returns a
      [Result].
    - The embedding model, the vector store, the CSV reader and the clock are
      not part of the repository: the class [Backend] gives what their
      calls return, the clock is an argument, and every call made to the
      model or the store is recorded as an [Event]. *)

From Stdlib Require Import ZArith Ascii String DecimalString.
From Stdlib Require Import DecimalNat.
From stdpp Require Import gmap strings list fin_maps.

Open Scope string_scope.

(** ** Python values and exceptions *)

(** A scalar held in a log record.  A CSV cell read by pandas, and a value
    of a metadata dictionary of the vector store, is a [str] or a scalar
    that is not a [str] (a number, a boolean, NaN for an empty cell); the
    latter is kept with the text [str()] gives for it. *)
Inductive Value :=
| VStr (s : string)
| VOther (repr : string).

(** One log record: a row of the data frame, a metadata dictionary. *)
Abbreviation Dict := (gmap string Value).

Inductive Exn :=
| KeyError (key : string)
| AttributeError (attr : string)
| IndexError
| ValidationError (fields : list string)
| BackendError (msg : string).

Inductive Result (A : Type) :=
| Ok (a : A)
| Raise (e : Exn).
Arguments Ok {A} a.
Arguments Raise {A} e.

Definition bind {A B} (r : Result A) (k : A -> Result B) : Result B :=
  match r with
  | Ok a => k a
  | Raise e => Raise e
  end.

Notation "'let*' x ':=' r 'in' k" := (bind r (fun x => k))
  (at level 10, x name, r at level 100, k at level 200).

(** [d[key]] *)
Definition getitem (d : Dict) (key : string) : Result Value :=
  match d !! key with
  | Some v => Ok v
  | None => Raise (KeyError key)
  end.

(** The text an f-string puts for [{v}]. *)
Definition py_str (v : Value) : string :=
  match v with
  | VStr s => s
  | VOther repr => repr
  end.

(** [str(i)] for [i] in a [range]. *)
Definition str_of_nat (i : nat) : string :=
  NilEmpty.string_of_uint (Nat.to_uint i).

(** ** Strings: [lower] and [in] *)

Definition lower_ascii (c : ascii) : ascii :=
  let n := nat_of_ascii c in
  if (65 <=? n)%nat && (n <=? 90)%nat then ascii_of_nat (n + 32) else c.

(** [s.lower()] *)
Fixpoint lower (s : string) : string :=
  match s with
  | EmptyString => EmptyString
  | String c s' => String (lower_ascii c) (lower s')
  end.

(** [v.lower()] on a value of a record: only a [str] has the method. *)
Definition value_lower (v : Value) : Result string :=
  match v with
  | VStr s => Ok (lower s)
  | VOther _ => Raise (AttributeError "lower")
  end.

(** [needle in hay] *)
Fixpoint contains (needle hay : string) : bool :=
  String.prefix needle hay ||
  match hay with
  | EmptyString => false
  | String _ hay' => contains needle hay'
  end.

(** [sep.join(parts)] *)
Definition join (sep : string) (parts : list string) : string :=
  String.concat sep parts.

Definition newline : string := String (ascii_of_nat 10) EmptyString.

(** ** The rule engine: [IndustrialRAGSystem.generate_insight] *)

Definition TEMPERATURE_INSIGHT : string :=
  "Temperature anomaly detected. Recommend immediate inspection of cooling systems and thermal sensors.".
Definition VIBRATION_INSIGHT : string :=
  "Vibration patterns suggest mechanical wear. Schedule bearing inspection and lubrication check.".
Definition PRESSURE_INSIGHT : string :=
  "Pressure variations detected. Check for leaks, blockages, or pump performance issues.".
Definition GENERIC_INSIGHT : string :=
  "Multiple equipment events detected. Recommend comprehensive system review.".
Definition NO_LOGS_INSIGHT : string :=
  "No relevant logs found for this query.".

(** [[f"- {log['timestamp']}: {log['message']}" for log in logs]]: a list
    comprehension, evaluated on every element. *)
Fixpoint context_lines (logs : list Dict) : Result (list string) :=
  match logs with
  | [] => Ok []
  | log :: rest =>
      let* ts := getitem log "timestamp" in
      let* msg := getitem log "message" in
      let* lines := context_lines rest in
      Ok (("- " +:+ py_str ts +:+ ": " +:+ py_str msg) :: lines)
  end.

(** [any(keyword in log['message'].lower() for log in logs)]: [any] over a
    generator stops at the first record that matches. *)
Fixpoint any_message_has (keyword : string) (logs : list Dict) : Result bool :=
  match logs with
  | [] => Ok false
  | log :: rest =>
      let* msg := getitem log "message" in
      let* low := value_lower msg in
      if contains keyword low then Ok true else any_message_has keyword rest
  end.

Definition build_prompt (query context : string) : string :=
  "Based on the following industrial equipment logs, provide a concise analysis:"
  +:+ newline +:+ newline +:+ "Query: " +:+ query
  +:+ newline +:+ newline +:+ "Relevant Log Entries:" +:+ newline +:+ context
  +:+ newline +:+ newline +:+ "Analysis:".

Section RuleEngine.
(** The method reads nothing of [self]; [Self] stands for the class. *)
Context {Self : Type}.

Definition generate_insight (self : Self) (query : string)
    (context_logs : list Dict) : Result string :=
  let* lines := context_lines (take 3 context_logs) in
  let context := join newline lines in
  let prompt := build_prompt query context in
  let* temperature := any_message_has "temperature" context_logs in
  if temperature then Ok TEMPERATURE_INSIGHT else
  let* vibration := any_message_has "vibration" context_logs in
  if vibration then Ok VIBRATION_INSIGHT else
  let* pressure := any_message_has "pressure" context_logs in
  if pressure then Ok PRESSURE_INSIGHT else
  Ok GENERIC_INSIGHT.
End RuleEngine.

(** ** The collaborators

    The embedding model ([SentenceTransformer.encode]), the vector store
    (a chromadb collection), [pandas.read_csv] and [os.path.exists] are
    libraries, not code of the repository.  A [Backend] gives what each
    call returns; nothing is assumed of it. *)

(** The keyword arguments of [collection.add]. *)
Record AddBatch (Emb : Type) := {
  embeddings : list Emb;
  documents : list string;
  metadatas : list Dict;
  ids : list string;
}.
Arguments embeddings {Emb}.
Arguments documents {Emb}.
Arguments metadatas {Emb}.
Arguments ids {Emb}.

(** What [collection.query] returns, reduced to the key the code reads:
    [results['metadatas']], one list of metadata dictionaries per query
    embedding, or [None]. *)
Record QueryResult := {
  results_metadatas : option (list (list Dict));
}.

Class Backend := {
  Embedding : Type;
  Collection : Type;
  path_exists : string -> bool;
  read_csv : string -> Result (list Dict);
  encode : list string -> Result (list Embedding);
  create_collection : Result Collection;
  collection_add : Collection -> AddBatch Embedding -> Result Collection;
  collection_query : Collection -> list Embedding -> Z -> Result QueryResult;
}.

(** A call made to the embedding model or to the vector store. *)
Inductive Event `{Backend} :=
| EvEncode (texts : list string)
| EvAdd (batch : AddBatch Embedding)
| EvQuery (query_embeddings : list Embedding) (n_results : Z).

(** A computation that calls the collaborators: the calls made, in order,
    and the value returned or the exception raised. *)
Definition M `{Backend} (A : Type) : Type := list Event * Result A.

Section Effects.
Context `{Backend}.

Definition retM {A} (a : A) : M A := ([], Ok a).

Definition lift {A} (r : Result A) : M A := ([], r).

Definition bindM {A B} (m : M A) (k : A -> M B) : M B :=
  match m with
  | (trace, Ok a) => let (trace', r) := k a in (trace ++ trace', r)%list
  | (trace, Raise e) => (trace, Raise e)
  end.

Definition call_encode (texts : list string) : M (list Embedding) :=
  ([EvEncode texts], encode texts).

Definition call_add (c : Collection) (batch : AddBatch Embedding)
    : M Collection :=
  ([EvAdd batch], collection_add c batch).

Definition call_query (c : Collection) (query_embeddings : list Embedding)
    (n_results : Z) : M QueryResult :=
  ([EvQuery query_embeddings n_results],
   collection_query c query_embeddings n_results).
End Effects.

Notation "'let!' x ':=' m 'in' k" := (bindM m (fun x => k))
  (at level 10, x name, m at level 100, k at level 200).

(** ** [IndustrialRAGSystem] *)

(** The state of an instance is its collection; the embedding model is
    fixed by the backend, and the text-generation pipeline loaded by
    [__init__] is never called. *)
Record IndustrialRAGSystem `{Backend} := {
  collection : Collection;
}.

(** The lambda of [load_and_index_logs]:
    [f"{row['equipment_id']} {row['equipment_type']} {row['severity']} {row['message']}"] *)
Definition searchable_text (row : Dict) : Result string :=
  let* equipment_id := getitem row "equipment_id" in
  let* equipment_type := getitem row "equipment_type" in
  let* severity := getitem row "severity" in
  let* message := getitem row "message" in
  Ok (py_str equipment_id +:+ " " +:+ py_str equipment_type +:+ " "
      +:+ py_str severity +:+ " " +:+ py_str message).

(** [df.apply(f, axis=1)]: [f] on every row, in order; the first exception
    stops it. *)
Fixpoint apply_rows {A} (f : Dict -> Result A) (df : list Dict)
    : Result (list A) :=
  match df with
  | [] => Ok []
  | row :: rest =>
      let* a := f row in
      let* others := apply_rows f rest in
      Ok (a :: others)
  end.

(** [df['searchable_text'] = texts], then [df.to_dict('records')]. *)
Definition with_searchable_text (df : list Dict) (texts : list string)
    : list Dict :=
  zip_with (fun row text => <["searchable_text" := VStr text]> row) df texts.

Definition retrieve_top_k_default : Z := 5.

(** What the constructor loads, besides the collection it creates: the
    sentence-transformer model, the client of the vector database and the
    text-generation pipeline.  They are libraries too, and each of the
    three calls may raise. *)
Class Loaders := {
  SentenceTransformer : string -> Result unit;
  chromadb_Client : Result unit;
  pipeline : string -> string -> Result unit;
}.

Definition model_name_default : string := "all-MiniLM-L6-v2".

Section Methods.
Context `{Backend} `{Loaders}.

(** [IndustrialRAGSystem(model_name)]: the four statements of the
    constructor, in their order. *)
Definition __init__ (model_name : string) : M IndustrialRAGSystem :=
  let! embedding_model := lift (SentenceTransformer model_name) in
  let! chroma_client := lift chromadb_Client in
  let! c := lift create_collection in
  let! llm := lift (pipeline "text-generation" "microsoft/DialoGPT-medium") in
  retM {| collection := c |}.

Definition load_and_index_logs (self : IndustrialRAGSystem)
    (csv_path : string) : M IndustrialRAGSystem :=
  let! df := lift (read_csv csv_path) in
  let! texts := lift (apply_rows searchable_text df) in
  let df := with_searchable_text df texts in
  let! embeddings := call_encode texts in
  let! c := call_add (collection self)
              {| embeddings := embeddings;
                 documents := texts;
                 metadatas := df;
                 ids := map str_of_nat (seq 0 (length df)) |} in
  retM {| collection := c |}.

Definition retrieve_relevant_logs (self : IndustrialRAGSystem)
    (query : string) (top_k : Z) : M (list Dict) :=
  let! query_embedding := call_encode [query] in
  let! results := call_query (collection self) query_embedding top_k in
  retM (match results_metadatas results with
       | Some (first :: _) => first
       | Some [] | None => []
       end).
End Methods.

(** A value of the dictionary [query_system] returns. *)
Inductive Field :=
| FStr (s : string)
| FLogs (logs : list Dict).

Section QuerySystem.
Context `{Backend}.

(** [now] is what [pd.Timestamp.now().isoformat()] gives at the call. *)
Definition query_system (self : IndustrialRAGSystem) (now : string)
    (query : string) : M (gmap string Field) :=
  let! relevant_logs :=
    retrieve_relevant_logs self query retrieve_top_k_default in
  match relevant_logs with
  | [] =>
      retM (<["query" := FStr query]>
           (<["relevant_logs" := FLogs []]>
            (<["insight" := FStr NO_LOGS_INSIGHT]> ∅)))
  | _ :: _ =>
      let! insight := lift (generate_insight self query relevant_logs) in
      retM (<["query" := FStr query]>
           (<["relevant_logs" := FLogs relevant_logs]>
            (<["insight" := FStr insight]>
             (<["timestamp" := FStr now]> ∅))))
  end.

(** The part of [query_system] that follows the retrieval, which calls
    no collaborator. *)
Definition query_result (self : IndustrialRAGSystem) (now query : string)
    (relevant_logs : list Dict) : Result (gmap string Field) :=
  match relevant_logs with
  | [] =>
      Ok (<["query" := FStr query]>
          (<["relevant_logs" := FLogs []]>
           (<["insight" := FStr NO_LOGS_INSIGHT]> ∅)))
  | _ :: _ =>
      let* insight := generate_insight self query relevant_logs in
      Ok (<["query" := FStr query]>
          (<["relevant_logs" := FLogs relevant_logs]>
           (<["insight" := FStr insight]>
            (<["timestamp" := FStr now]> ∅))))
  end.
End QuerySystem.

(** ** The request handlers of [main.py] *)

Record QueryRequest := {
  query : string;
  top_k : option Z;
}.

Record AnomalyRequest := {
  equipment_id : string;
  anomaly_type : string;
  severity : option string;
}.

(** The defaults of the request models, for a body that leaves the
    optional field out. *)
Definition QueryRequest_default (query : string) : QueryRequest :=
  {| query := query; top_k := Some 5%Z |}.

Definition AnomalyRequest_default (equipment_id anomaly_type : string)
    : AnomalyRequest :=
  {| equipment_id := equipment_id; anomaly_type := anomaly_type;
     severity := Some "WARNING" |}.

Record InsightResponse := {
  response_query : string;
  response_insight : string;
  response_relevant_logs : list Dict;
  response_timestamp : string;
}.

(** The text an f-string puts for an [Optional[str]]. *)
Definition py_str_optional (o : option string) : string :=
  match o with
  | Some s => s
  | None => "None"
  end.

Definition field_str (kwargs : gmap string Field) (name : string)
    : option string :=
  match kwargs !! name with
  | Some (FStr s) => Some s
  | _ => None
  end.

Definition field_logs (kwargs : gmap string Field) (name : string)
    : option (list Dict) :=
  match kwargs !! name with
  | Some (FLogs logs) => Some logs
  | _ => None
  end.

Definition unless {A} (o : option A) (name : string) : list string :=
  match o with
  | Some _ => []
  | None => [name]
  end.

(** The constructor of [InsightResponse], called with the dictionary
    unpacked as keyword arguments: the four fields are required, none has a
    default; the model's validation raises [ValidationError], naming the
    fields that are missing or of the wrong type. *)
Definition InsightResponse_init (kwargs : gmap string Field)
    : Result InsightResponse :=
  match field_str kwargs "query", field_str kwargs "insight",
        field_logs kwargs "relevant_logs", field_str kwargs "timestamp" with
  | Some q, Some i, Some logs, Some t =>
      Ok {| response_query := q; response_insight := i;
            response_relevant_logs := logs; response_timestamp := t |}
  | q, i, logs, t =>
      Raise (ValidationError (unless q "query" ++ unless i "insight"
                              ++ unless logs "relevant_logs"
                              ++ unless t "timestamp")%list)
  end.

(** The [detail] of an [HTTPException]: a literal, or
    [f"{prefix}: {str(e)}"] for the exception [e] that was caught. *)
Inductive Detail :=
| DetailText (text : string)
| DetailFailed (prefix : string) (e : Exn).

(** What the client receives: the response model with status 200, or the
    status and detail of the [HTTPException] raised. *)
Inductive HTTPResponse :=
| Response200 (body : InsightResponse)
| HTTPException (status_code : Z) (detail : Detail).

Definition data_paths : list string :=
  ["C:\Users\USER\Desktop\DATA SCIENCE\Industrial_llm\data\industrial_logs.csv";
   "industrial_logs.csv"; "data\industrial_logs.csv";
   "/app/data/industrial_logs.csv"; "./data/industrial_logs.csv"].

Section Handlers.
Context `{Backend} `{Loaders}.

(** [startup_event]: the first path that exists is loaded; an exception
    is logged and raised again. *)
Definition startup_event : M IndustrialRAGSystem :=
  let! rag_system := __init__ model_name_default in
  match List.find path_exists data_paths with
  | Some path => load_and_index_logs rag_system path
  | None => retM rag_system
  end.

(** The [try] block of a handler: an exception becomes status 500. *)
Definition respond (failed : string) (m : M InsightResponse)
    : list Event * HTTPResponse :=
  match m with
  | (trace, Ok response) => (trace, Response200 response)
  | (trace, Raise e) => (trace, HTTPException 500 (DetailFailed failed e))
  end.

Definition query_logs (rag_system : option IndustrialRAGSystem)
    (now : string) (request : QueryRequest) : list Event * HTTPResponse :=
  match rag_system with
  | None => ([], HTTPException 503 (DetailText "RAG system not initialized"))
  | Some rag =>
      respond "Query processing failed"
        (let! result := query_system rag now (query request) in
         lift (InsightResponse_init result))
  end.

Definition analyze_anomaly (rag_system : option IndustrialRAGSystem)
    (now : string) (request : AnomalyRequest) : list Event * HTTPResponse :=
  match rag_system with
  | None => ([], HTTPException 503 (DetailText "RAG system not initialized"))
  | Some rag =>
      let query := equipment_id request +:+ " " +:+ anomaly_type request
                   +:+ " " +:+ py_str_optional (severity request) in
      respond "Anomaly analysis failed"
        (let! result := query_system rag now query in
         let result :=
           <["query" := FStr ("Anomaly analysis for "
                              +:+ equipment_id request +:+ ": "
                              +:+ anomaly_type request)]> result in
         lift (InsightResponse_init result))
  end.
End Handlers.

(** ** The vocabulary of the specification *)

(** [keyword] occurs in [text] when the case of letters is ignored. *)
Definition occurs_ignoring_case (keyword text : string) : Prop :=
  exists pre mid post,
    text = pre +:+ mid +:+ post /\ lower mid = lower keyword.

(** The record's message is a text in which [keyword] occurs. *)
Definition mentions (keyword : string) (log : Dict) : Prop :=
  exists s, log !! "message" = Some (VStr s) /\ occurs_ignoring_case keyword s.

(** The same test, as the code computes it. *)
Definition mentionsb (keyword : string) (log : Dict) : bool :=
  match log !! "message" with
  | Some (VStr s) => contains keyword (lower s)
  | _ => false
  end.



(** A record as the data model has it: a timestamp, and a message that is
    a text. *)
Definition is_log_record (log : Dict) : Prop :=
  is_Some (log !! "timestamp") /\ exists s, log !! "message" = Some (VStr s).


Definition is_log_recordb (log : Dict) : bool :=
  match log !! "timestamp", log !! "message" with
  | Some _, Some (VStr _) => true
  | _, _ => false
  end.

(** The sentence the rule table gives: the first rule, in the order
    temperature, vibration, pressure, that some record satisfies. *)
Definition rule_table (logs : list Dict) : string :=
  if existsb (mentionsb "temperature") logs then TEMPERATURE_INSIGHT
  else if existsb (mentionsb "vibration") logs then VIBRATION_INSIGHT
  else if existsb (mentionsb "pressure") logs then PRESSURE_INSIGHT
  else GENERIC_INSIGHT.

(** The fields the specification calls required, and the fields that
    [searchable_text] reads. *)
Definition required_fields : list string :=
  ["timestamp"; "equipment_id"; "severity"; "message"].
Definition text_fields : list string :=
  ["equipment_id"; "equipment_type"; "severity"; "message"].

Definition has_fields (fields : list string) (row : Dict) : Prop :=
  Forall (fun field => is_Some (row !! field)) fields.

Definition has_fieldsb (fields : list string) (row : Dict) : bool :=
  forallb (fun field => match row !! field with
                        | Some _ => true
                        | None => false
                        end) fields.

Definition field_text (row : Dict) (field : string) : string :=
  match row !! field with
  | Some v => py_str v
  | None => ""
  end.

(** The searchable text in the words of the specification: the four
    fields, in this order, joined by single spaces. *)
Definition joined_fields (row : Dict) : string :=
  join " " (map (field_text row) text_fields).

(** The entries the specification describes for a table [df] whose texts
    have the embeddings [embs]: the joined fields as document, the row
    with its text as metadata, the position as id. *)
Definition index_batch `{Backend} (df : list Dict) (embs : list Embedding)
    : AddBatch Embedding :=
  {| embeddings := embs;
     documents := map joined_fields df;
     metadatas :=
       map (fun row => <["searchable_text" := VStr (joined_fields row)]> row) df;
     ids := imap (fun i _ => str_of_nat i) df |}.

(** The label the anomaly handler puts in place of the query. *)
Definition anomaly_label (equipment_id anomaly_type : string) : string :=
  "Anomaly analysis for " +:+ equipment_id +:+ ": " +:+ anomaly_type.

(** ** An in-memory backend and sample data

    A test double for the collaborators, to run the model on concrete
    inputs: the embedding of a text is the text, the store keeps the
    metadata in insertion order and a query returns its first [n_results]
    entries; [files] gives the tables that exist, by path. *)
Module Demo.
Definition backend (files : gmap string (list Dict)) : Backend :=
  {| Embedding := string;
     Collection := list Dict;
     path_exists path :=
     match files !! path with
     | Some _ => true
     | None => false
     end;
     read_csv path :=
       match files !! path with
       | Some df => Ok df
       | None => Raise (BackendError "FileNotFoundError")
       end;
     encode texts := Ok texts;
     create_collection := Ok [];
     collection_add c batch := Ok (c ++ metadatas batch)%list;
     collection_query c _ n_results :=
       Ok {| results_metadatas := Some [take (Z.to_nat n_results) c] |} |}.

Definition record (timestamp equipment_id equipment_type severity message
                   : string) : Dict :=
  list_to_map [("timestamp", VStr timestamp);
               ("equipment_id", VStr equipment_id);
               ("equipment_type", VStr equipment_type);
               ("severity", VStr severity);
               ("message", VStr message);
               ("facility", VStr "Plant_A");
               ("operator", VStr "J. Doe")].

Definition hot : Dict :=
  record "2024-05-01T08:00:00" "pump_01" "pump" "ERROR"
    "pump_01: Temperature reading 88.0 C exceeds normal range (40-60 C)".
Definition shaking : Dict :=
  record "2024-05-01T09:00:00" "motor_02" "motor" "WARNING"
    "motor_02: Vibration levels elevated to 9.1Hz, potential bearing wear detected".
Definition leaking : Dict :=
  record "2024-05-01T10:00:00" "pump_03" "pump" "WARNING"
    "pump_03: Pressure drop detected, possible seal integrity compromise".
Definition nominal : Dict :=
  record "2024-05-01T11:00:00" "pump_01" "pump" "INFO"
    "pump_01: Operating within normal parameters".

(** A row that lacks the timestamp, and one that lacks the equipment
    type. *)
Definition undated : Dict := delete "timestamp" nominal.
Definition untyped : Dict := delete "equipment_type" nominal.

Definition files : gmap string (list Dict) :=
  list_to_map [("./data/industrial_logs.csv", [hot; shaking; nominal]);
               ("undated.csv", [undated]);
               ("untyped.csv", [untyped])].

(** The state after a start with no data file. *)
Definition fresh_rag : @IndustrialRAGSystem (backend ∅) :=
  {| collection := ([] : @Collection (backend ∅)) |}.

(** The three loads of the constructor succeed. *)
Definition loaders : Loaders :=
  {| SentenceTransformer _ := Ok tt;
     chromadb_Client := Ok tt;
     pipeline _ _ := Ok tt |}.

(** The embeddings of this backend are the texts. *)
Definition embedded (texts : list string) : list (@Embedding (backend files)) :=
  texts.

Definition empty_rag : @IndustrialRAGSystem (backend files) :=
  {| collection := ([] : @Collection (backend files)) |}.

Definition rag_of (stored : list Dict) : @IndustrialRAGSystem (backend files) :=
  {| collection := (stored : @Collection (backend files)) |}.
End Demo.

(** ** The other endpoints of [main.py] *)

Record RootBody := {
  root_message : string;
  root_status : string;
  root_version : string;
}.

Record HealthBody := {
  health_status : string;
  rag_system_initialized : bool;
  health_timestamp : string;
}.

(** [GET /] *)
Definition root : RootBody :=
  {| root_message := "Industrial LLM Insight API";
     root_status := "healthy";
     root_version := "1.0.0" |}.

(** [GET /health]: [rag_system is not None]. *)
Definition health_check `{Backend} (rag_system : option IndustrialRAGSystem)
    (now : string) : HealthBody :=
  {| health_status := "healthy";
     rag_system_initialized :=
       match rag_system with
       | Some _ => true
       | None => false
       end;
     health_timestamp := now |}.

(** ** More vocabulary *)

(** The sentences the rule engine can give. *)
Definition insights : list string :=
  [TEMPERATURE_INSIGHT; VIBRATION_INSIGHT; PRESSURE_INSIGHT; GENERIC_INSIGHT].

(** The keys the prompt reads of each of the first three records. *)
Definition prompt_fields : list string := ["timestamp"; "message"].

(** The record's message is a text. *)
Definition has_text_message (log : Dict) : Prop :=
  exists s, log !! "message" = Some (VStr s).

Definition has_text_messageb (log : Dict) : bool :=
  match log !! "message" with
  | Some (VStr _) => true
  | _ => false
  end.

(** The list returned for what [collection.query] gave. *)
Definition first_metadatas (results : QueryResult) : list Dict :=
  match results_metadatas results with
  | Some (first :: _) => first
  | Some [] | None => []
  end.

(** A response of [query_logs] as [analyze_anomaly] would give it: the
    label in place of the query, and its own words before the cause of a
    failure. *)
Definition relabel (label failed : string) (response : HTTPResponse)
    : HTTPResponse :=
  match response with
  | Response200 body =>
      Response200
        {| response_query := label;
           response_insight := response_insight body;
           response_relevant_logs := response_relevant_logs body;
           response_timestamp := response_timestamp body |}
  | HTTPException status_code (DetailFailed _ e) =>
      HTTPException status_code (DetailFailed failed e)
  | HTTPException status_code (DetailText text) =>
      HTTPException status_code (DetailText text)
  end.

(** ** The client functions of [streamlit_app.py] *)

Module Dashboard.
(** A request the dashboard sends, with the JSON it posts. *)
Inductive Request :=
| GetHealth
| PostQuery (query : string)
| PostAnomaly (equipment_id anomaly_type severity : string).

(** What [response.json()] can return: the three shapes this application
    sends, the JSON [null], which Python reads as [None], and any other
    JSON value, kept as its text. *)
Inductive Json :=
| JNull
| JInsight (body : InsightResponse)
| JDetail (detail : Detail)
| JHealth (body : HealthBody)
| JOther (text : string).

(** The body of a response: JSON, or a text that is not JSON. *)
Inductive Body :=
| JsonBody (json : Json)
| NotJson (text : string).

(** What [requests.get] and [requests.post] give: a response with its
    status and body, or an exception of [requests] (no connection, time
    out). *)
Inductive Response :=
| Replied (status_code : Z) (body : Body)
| RequestFailed (error : string).

(** The exception [query_api] catches: [JSONDecodeError] is the one
    [response.json()] raises, of the [RequestException] family too. *)
Inductive RequestException :=
| HTTPError (status_code : Z)
| JSONDecodeError
| OtherRequestException (error : string).

(** A call of [st.error(f"API Error: {str(e)}")]. *)
Inductive Shown :=
| StError (e : RequestException).

(** [response.raise_for_status()]: it raises for the client and server
    error statuses. *)
Definition raise_for_status (status_code : Z) : option RequestException :=
  if (400 <=? status_code)%Z && (status_code <? 600)%Z
  then Some (HTTPError status_code)
  else None.

(** [response.json()] *)
Definition response_json (body : Body) : RequestException + option Json :=
  match body with
  | NotJson _ => inl JSONDecodeError
  | JsonBody JNull => inr None
  | JsonBody value => inr (Some value)
  end.

(** The body of both [query_api] and [analyze_anomaly], after the
    request: [raise_for_status()], then [return response.json()], and the
    [except] clause around both. *)
Definition result_of (response : Response) : list Shown * option Json :=
  match response with
  | Replied status_code body =>
      match raise_for_status status_code with
      | Some e => ([StError e], None)
      | None =>
          match response_json body with
          | inl e => ([StError e], None)
          | inr result => ([], result)
          end
      end
  | RequestFailed error => ([StError (OtherRequestException error)], None)
  end.

Section Client.
(** The connection and the application behind it. *)
Variable send : Request -> Response.

Definition check_api_health : bool :=
  match send GetHealth with
  | Replied status_code _ => (status_code =? 200)%Z
  | RequestFailed _ => false
  end.

Definition query_api (query : string) : list Shown * option Json :=
  result_of (send (PostQuery query)).

Definition analyze_anomaly (equipment_id anomaly_type : string)
    : list Shown * option Json :=
  result_of (send (PostAnomaly equipment_id anomaly_type "WARNING")).
End Client.

End Dashboard.

(** The reply the framework makes of what a handler returned or
    raised. *)
Definition reply_of (response : HTTPResponse) : Dashboard.Response :=
  match response with
  | Response200 body =>
      Dashboard.Replied 200 (Dashboard.JsonBody (Dashboard.JInsight body))
  | HTTPException status_code detail =>
      Dashboard.Replied status_code (Dashboard.JsonBody (Dashboard.JDetail detail))
  end.

(** The application of [main.py] behind a connection that works: the
    request body is validated into the request model, with the default
    for [top_k], and the handler of the path is called. *)
Definition serve `{Backend} (rag_system : option IndustrialRAGSystem)
    (now : string) (request : Dashboard.Request) : Dashboard.Response :=
  match request with
  | Dashboard.GetHealth =>
      Dashboard.Replied 200
        (Dashboard.JsonBody (Dashboard.JHealth (health_check rag_system now)))
  | Dashboard.PostQuery q =>
      reply_of (query_logs rag_system now (QueryRequest_default q)).2
  | Dashboard.PostAnomaly equipment_id anomaly_type severity =>
      reply_of (analyze_anomaly rag_system now
                  {| equipment_id := equipment_id;
                     anomaly_type := anomaly_type;
                     severity := Some severity |}).2
  end.

(** More sample data. *)
Module Samples.
(** A record whose message cell was empty in the table. *)
Definition blank : Dict := <["message" := VOther "nan"]> Demo.nominal.
(** A record with no message at all. *)
Definition mute : Dict := delete "message" Demo.nominal.
End Samples.

(** ** Facts about [lower] and [contains] *)

Lemma prefix_app (a b : string) :
  String.prefix a b = true <-> exists post, b = a +:+ post.
Proof.
  revert b; induction a as [|c a IH]; intros b.
  - split; [intros _; exists b; reflexivity | now destruct b].
  - destruct b as [|d b]; simpl.
    + split; [discriminate | intros [post H]; discriminate].
    + destruct (Ascii.ascii_dec c d) as [->|Hne].
      * rewrite IH. split; intros [post H]; exists post.
        -- now rewrite H.
        -- now injection H.
      * split; [discriminate | intros [post H]; injection H; congruence].
Qed.

Lemma contains_app (needle hay : string) :
  contains needle hay = true <->
  exists pre post, hay = pre +:+ needle +:+ post.
Proof.
  induction hay as [|c hay IH]; cbn [contains]; rewrite orb_true_iff, prefix_app.
  - split.
    + intros [[post H]|H]; [|discriminate]. exists "", post. exact H.
    + intros [pre [post H]]. left. destruct pre; simpl in H.
      * exists post. exact H.
      * discriminate.
  - rewrite IH. split.
    + intros [[post H]|[pre [post H]]].
      * exists "", post. exact H.
      * exists (String c pre), post. simpl. now rewrite H.
    + intros [pre [post H]]. destruct pre as [|d pre]; simpl in H.
      * left. exists post. exact H.
      * right. exists pre, post. now injection H.
Qed.

Lemma lower_app (a b : string) : lower (a +:+ b) = lower a +:+ lower b.
Proof. induction a as [|c a IH]; simpl; [reflexivity | now rewrite IH]. Qed.

Lemma lower_split (s a b : string) :
  lower s = a +:+ b ->
  exists a' b', s = a' +:+ b' /\ lower a' = a /\ lower b' = b.
Proof.
  revert s; induction a as [|c a IH]; intros s H; simpl in H.
  - exists "", s. auto.
  - destruct s as [|d s]; simpl in H; [discriminate|].
    injection H as Hc Hs. destruct (IH _ Hs) as (a' & b' & -> & <- & <-).
    exists (String d a'), b'. simpl. now rewrite Hc.
Qed.

(** The test the code computes is the occurrence of the keyword with the
    case of letters ignored, for a keyword written in lower case. *)
Lemma contains_lower (keyword text : string) :
  lower keyword = keyword ->
  contains keyword (lower text) = true <-> occurs_ignoring_case keyword text.
Proof.
  intros Hkw. rewrite contains_app. unfold occurs_ignoring_case. rewrite Hkw.
  split.
  - intros (pre & post & H).
    destruct (lower_split _ _ _ H) as (pre' & rest & -> & Hpre & Hrest).
    destruct (lower_split _ _ _ Hrest) as (mid & post' & -> & Hmid & Hpost).
    now exists pre', mid, post'.
  - intros (pre & mid & post & -> & Hmid).
    exists (lower pre), (lower post). now rewrite !lower_app, Hmid.
Qed.

Lemma mentionsb_mentions (keyword : string) (log : Dict) :
  lower keyword = keyword ->
  mentionsb keyword log = true <-> mentions keyword log.
Proof.
  intros Hkw. unfold mentionsb, mentions. split.
  - destruct (log !! "message") as [[s|r]|] eqn:E; try discriminate.
    intros Hc. exists s. split; [reflexivity|]. now apply contains_lower.
  - intros (s & -> & Hocc). now apply contains_lower.
Qed.

Lemma existsb_mentions (keyword : string) (logs : list Dict) :
  lower keyword = keyword ->
  existsb (mentionsb keyword) logs = true <-> Exists (mentions keyword) logs.
Proof.
  intros Hkw. induction logs as [|log rest IH]; simpl.
  - split; [discriminate | inversion 1].
  - rewrite orb_true_iff, Exists_cons, IH, mentionsb_mentions by assumption.
    reflexivity.
Qed.

(** ** The rule engine *)

Lemma context_lines_ok (logs : list Dict) :
  Forall is_log_record logs -> exists lines, context_lines logs = Ok lines.
Proof.
  induction 1 as [|log rest [[ts Hts] [s Hs]] _ [lines IH]]; simpl.
  - now exists [].
  - unfold getitem. rewrite Hts, Hs. simpl. rewrite IH. simpl. eauto.
Qed.

Lemma any_message_has_existsb (keyword : string) (logs : list Dict) :
  Forall is_log_record logs ->
  any_message_has keyword logs = Ok (existsb (mentionsb keyword) logs).
Proof.
  induction 1 as [|log rest [_ [s Hs]] _ IH]; simpl; [reflexivity|].
  unfold getitem, mentionsb. rewrite Hs. simpl.
  destruct (contains keyword (lower s)); [reflexivity | exact IH].
Qed.

(** On records of the data model the method returns, and returns what
    the rule table gives for the whole list. *)
Lemma generate_insight_rule_table {Self} (self : Self) (query : string)
    (logs : list Dict) :
  Forall is_log_record logs ->
  generate_insight self query logs = Ok (rule_table logs).
Proof.
  intros Hlogs. unfold generate_insight, rule_table.
  destruct (context_lines_ok (take 3 logs)) as [lines ->];
    [now apply Forall_take|]. simpl.
  rewrite !any_message_has_existsb by assumption. simpl.
  destruct (existsb (mentionsb "temperature") logs); [reflexivity|]. simpl.
  destruct (existsb (mentionsb "vibration") logs); [reflexivity|]. simpl.
  destruct (existsb (mentionsb "pressure") logs); reflexivity.
Qed.

Lemma is_log_recordb_true (log : Dict) :
  is_log_recordb log = true -> is_log_record log.
Proof.
  unfold is_log_recordb, is_log_record.
  destruct (log !! "timestamp") as [ts|]; [|discriminate].
  destruct (log !! "message") as [[s|r]|]; try discriminate.
  intros _. split; eauto.
Qed.

Lemma log_records_checked (logs : list Dict) :
  forallb is_log_recordb logs = true -> Forall is_log_record logs.
Proof.
  induction logs as [|log rest IH]; simpl; [constructor|].
  rewrite andb_true_iff. intros [Hlog Hrest].
  constructor; [now apply is_log_recordb_true | now apply IH].
Qed.





Lemma existsb_no_mention (keyword : string) (logs : list Dict) :
  lower keyword = keyword ->
  existsb (mentionsb keyword) logs = false <->
  ~ Exists (mentions keyword) logs.
Proof.
  intros Hkw. rewrite <- existsb_mentions by assumption.
  destruct (existsb (mentionsb keyword) logs); split; congruence.
Qed.





(** C3, as amended.  The order of the rules is fixed, over all the
    records passed in and not the first three only.  On records of the
    data model:
    when some record mentions "temperature" the temperature sentence is
    returned, whatever else is mentioned; otherwise, when some record
    mentions "vibration", the vibration sentence, whether or not
    "pressure" is mentioned; otherwise, when some record mentions
    "pressure", the pressure sentence. *)
Theorem generate_insight_priority {Self} (self : Self) (query : string)
    (logs : list Dict) :
  Forall is_log_record logs ->
  (Exists (mentions "temperature") logs ->
   generate_insight self query logs = Ok TEMPERATURE_INSIGHT) /\
  (~ Exists (mentions "temperature") logs ->
   Exists (mentions "vibration") logs ->
   generate_insight self query logs = Ok VIBRATION_INSIGHT) /\
  (~ Exists (mentions "temperature") logs ->
   ~ Exists (mentions "vibration") logs ->
   Exists (mentions "pressure") logs ->
   generate_insight self query logs = Ok PRESSURE_INSIGHT).
Proof.
  intros Hlogs. rewrite generate_insight_rule_table by assumption.
  unfold rule_table.
  rewrite <- !existsb_no_mention, <- !existsb_mentions by reflexivity.
  repeat split.
  - now intros ->.
  - now intros -> ->.
  - now intros -> -> ->.
Qed.

Lemma generate_insight_priority_witness :
  Forall is_log_record [Demo.leaking; Demo.shaking; Demo.hot] /\
  Exists (mentions "temperature") [Demo.leaking; Demo.shaking; Demo.hot] /\
  generate_insight Demo.empty_rag "what is wrong"
    [Demo.leaking; Demo.shaking; Demo.hot] = Ok TEMPERATURE_INSIGHT.
Proof.
  assert (Hlogs : Forall is_log_record [Demo.leaking; Demo.shaking; Demo.hot])
    by (apply log_records_checked; vm_compute; reflexivity).
  assert (Hhot : Exists (mentions "temperature")
                   [Demo.leaking; Demo.shaking; Demo.hot])
    by (apply existsb_mentions; vm_compute; reflexivity).
  split; [exact Hlogs|]. split; [exact Hhot|].
  exact (proj1 (generate_insight_priority Demo.empty_rag "what is wrong"
                  _ Hlogs) Hhot).
Defined.

(** C3, read on the three records the prompt is built from, fails: the
    rules look at every record.  Among the first three of the first list
    one mentions the vibration and none the temperature, yet the fourth
    gives the temperature sentence; among the first three of the second
    one mentions the pressure and none the vibration, yet the fifth gives
    the vibration sentence. *)
Lemma generate_insight_priority_top3_counterexample :
  (Forall is_log_record [Demo.shaking; Demo.leaking; Demo.nominal; Demo.hot] /\
   ~ Exists (mentions "temperature")
       (take 3 [Demo.shaking; Demo.leaking; Demo.nominal; Demo.hot]) /\
   Exists (mentions "vibration")
     (take 3 [Demo.shaking; Demo.leaking; Demo.nominal; Demo.hot]) /\
   generate_insight Demo.empty_rag "motor_02 status"
     [Demo.shaking; Demo.leaking; Demo.nominal; Demo.hot]
   = Ok TEMPERATURE_INSIGHT /\
   generate_insight Demo.empty_rag "motor_02 status"
     [Demo.shaking; Demo.leaking; Demo.nominal; Demo.hot]
   <> Ok VIBRATION_INSIGHT) /\
  (Forall is_log_record
     [Demo.leaking; Demo.nominal; Demo.nominal; Demo.nominal; Demo.shaking] /\
   ~ Exists (mentions "temperature")
       (take 3 [Demo.leaking; Demo.nominal; Demo.nominal; Demo.nominal;
                Demo.shaking]) /\
   ~ Exists (mentions "vibration")
       (take 3 [Demo.leaking; Demo.nominal; Demo.nominal; Demo.nominal;
                Demo.shaking]) /\
   Exists (mentions "pressure")
     (take 3 [Demo.leaking; Demo.nominal; Demo.nominal; Demo.nominal;
              Demo.shaking]) /\
   generate_insight Demo.empty_rag "pump_03 status"
     [Demo.leaking; Demo.nominal; Demo.nominal; Demo.nominal; Demo.shaking]
   = Ok VIBRATION_INSIGHT /\
   generate_insight Demo.empty_rag "pump_03 status"
     [Demo.leaking; Demo.nominal; Demo.nominal; Demo.nominal; Demo.shaking]
   <> Ok PRESSURE_INSIGHT).
Proof.
  split.
  - split; [apply log_records_checked; vm_compute; reflexivity|].
    split; [apply existsb_no_mention; vm_compute; reflexivity|].
    split; [apply existsb_mentions; vm_compute; reflexivity|].
    split; [reflexivity | intros Hv; discriminate Hv].
  - split; [apply log_records_checked; vm_compute; reflexivity|].
    split; [apply existsb_no_mention; vm_compute; reflexivity|].
    split; [apply existsb_no_mention; vm_compute; reflexivity|].
    split; [apply existsb_mentions; vm_compute; reflexivity|].
    split; [reflexivity | intros Hp; discriminate Hp].
Qed.

(** The same for the three records the prompt is built from: a mention
    among them is a mention in the list. *)
Corollary generate_insight_priority_top3 {Self} (self : Self)
    (query : string) (logs : list Dict) :
  Forall is_log_record logs ->
  Exists (mentions "temperature") (take 3 logs) ->
  generate_insight self query logs = Ok TEMPERATURE_INSIGHT.
Proof.
  intros Hlogs Hex. rewrite generate_insight_rule_table by assumption.
  assert (Hany : existsb (mentionsb "temperature") logs = true).
  { apply existsb_mentions; [reflexivity|].
    rewrite <- (take_drop 3 logs). apply Exists_app. now left. }
  unfold rule_table. now rewrite Hany.
Qed.

(** C8.  [generate_insight] is deterministic: two runs on the same query
    and the same non-empty list of records, in whatever state each
    instance is, give the same outcome. *)
Theorem generate_insight_deterministic {Self1 Self2} (self1 : Self1)
    (self2 : Self2) (query1 query2 : string) (logs1 logs2 : list Dict) :
  query1 = query2 -> logs1 = logs2 -> logs1 <> [] ->
  generate_insight self1 query1 logs1 = generate_insight self2 query2 logs2.
Proof. intros -> -> _. reflexivity. Qed.

Lemma generate_insight_deterministic_witness :
  generate_insight Demo.empty_rag "pump_01 temperature" [Demo.hot]
  = generate_insight (Demo.rag_of [Demo.hot; Demo.nominal])
      "pump_01 temperature" [Demo.hot].
Proof.
  apply (generate_insight_deterministic Demo.empty_rag
           (Demo.rag_of [Demo.hot; Demo.nominal])); [reflexivity..|discriminate].
Defined.

(** C10.  The query takes no part in the choice of the sentence: the
    prompt is built from it and dropped. *)
Theorem generate_insight_ignores_query {Self} (self : Self)
    (logs : list Dict) (query1 query2 : string) :
  generate_insight self query1 logs = generate_insight self query2 logs.
Proof.
  unfold generate_insight.
  destruct (context_lines (take 3 logs)) as [lines|e]; reflexivity.
Qed.

(** ** The pipeline: calls made and values returned *)

Section PipelineFacts.
Context `{Backend}.

(** A continuation that calls no collaborator adds nothing to the
    trace. *)
Lemma bindM_lift {A B} (m : M A) (f : A -> Result B) :
  bindM m (fun a => lift (f a)) = (m.1, bind m.2 f).
Proof.
  destruct m as [trace [a|e]]; simpl; [|reflexivity].
  now rewrite app_nil_r.
Qed.

Lemma query_system_retrieve (self : IndustrialRAGSystem)
    (now query : string) :
  query_system self now query
  = ((retrieve_relevant_logs self query 5).1,
     bind (retrieve_relevant_logs self query 5).2
          (query_result self now query)).
Proof.
  unfold query_system, retrieve_top_k_default, query_result.
  destruct (retrieve_relevant_logs self query 5) as [trace [[|log logs]|e]];
    simpl; rewrite ?app_nil_r; try reflexivity.
  destruct (generate_insight self query (log :: logs)); simpl;
    now rewrite app_nil_r.
Qed.

Lemma retrieve_trace (self : IndustrialRAGSystem) (query : string)
    (top_k : Z) :
  (retrieve_relevant_logs self query top_k).1
  = match encode [query] with
    | Ok embedding => [EvEncode [query]; EvQuery embedding top_k]
    | Raise _ => [EvEncode [query]]
    end.
Proof.
  unfold retrieve_relevant_logs, call_encode, call_query, bindM.
  destruct (encode [query]) as [embedding|e]; [|reflexivity].
  destruct (collection_query _ _ _); reflexivity.
Qed.

Lemma respond_trace (failed : string) (m : M InsightResponse) :
  (respond failed m).1 = m.1.
Proof. now destruct m as [trace [response|e]]. Qed.

Lemma query_logs_trace (rag : IndustrialRAGSystem) (now : string)
    (request : QueryRequest) :
  (query_logs (Some rag) now request).1
  = (retrieve_relevant_logs rag (query request) 5).1.
Proof.
  unfold query_logs.
  now rewrite respond_trace, bindM_lift, query_system_retrieve.
Qed.
End PipelineFacts.


(** ** The request handlers *)

Section HandlerFacts.
Context `{Backend}.

Lemma analyze_anomaly_trace (rag : IndustrialRAGSystem) (now : string)
    (request : AnomalyRequest) :
  (analyze_anomaly (Some rag) now request).1
  = (retrieve_relevant_logs rag
       (equipment_id request +:+ " " +:+ anomaly_type request +:+ " "
        +:+ py_str_optional (severity request)) 5).1.
Proof.
  unfold analyze_anomaly.
  now rewrite respond_trace, bindM_lift, query_system_retrieve.
Qed.

(** What the model's validation makes of the two dictionaries
    [query_system] can return. *)
Lemma InsightResponse_init_no_logs (q : string) :
  InsightResponse_init
    (<["query" := FStr q]>
     (<["relevant_logs" := FLogs []]>
      (<["insight" := FStr NO_LOGS_INSIGHT]> ∅)))
  = Raise (ValidationError ["timestamp"]).
Proof. reflexivity. Qed.

Lemma InsightResponse_init_logs (q insight now : string) (logs : list Dict) :
  InsightResponse_init
    (<["query" := FStr q]>
     (<["relevant_logs" := FLogs logs]>
      (<["insight" := FStr insight]> (<["timestamp" := FStr now]> ∅))))
  = Ok {| response_query := q; response_insight := insight;
          response_relevant_logs := logs; response_timestamp := now |}.
Proof. reflexivity. Qed.

Lemma insert_query_twice (label q : string) (m : gmap string Field) :
  <["query" := FStr label]> (<["query" := FStr q]> m)
  = <["query" := FStr label]> m.
Proof. apply insert_insert_eq. Qed.

(** A response with status 200 carries what was retrieved, and that is
    never empty. *)
Lemma query_logs_200 (rag_system : option IndustrialRAGSystem)
    (now : string) (request : QueryRequest) (body : InsightResponse) :
  (query_logs rag_system now request).2 = Response200 body ->
  exists rag, rag_system = Some rag /\
    (retrieve_relevant_logs rag (query request) 5).2
      = Ok (response_relevant_logs body) /\
    response_relevant_logs body <> [] /\
    generate_insight rag (query request) (response_relevant_logs body)
      = Ok (response_insight body).
Proof.
  destruct rag_system as [rag|]; [|discriminate]. intros Hbody.
  exists rag. split; [reflexivity|]. revert Hbody. unfold query_logs.
  rewrite bindM_lift, query_system_retrieve. unfold respond, query_result.
  destruct (retrieve_relevant_logs rag (query request) 5)
    as [trace [[|log logs]|e]]; simpl; try discriminate.
  destruct (generate_insight rag (query request) (log :: logs))
    as [insight|e] eqn:Hinsight; simpl; [|discriminate].
  rewrite InsightResponse_init_logs. intros [= <-]. simpl.
  repeat split; [discriminate | exact Hinsight].
Qed.

(** C2.  When the retrieval returns no record, [query_system] returns the
    dictionary with the empty [relevant_logs] and the "No relevant logs"
    insight, which has no [timestamp]; the handler's response model
    requires one, its validation raises, and the client receives status
    500, not 200. *)
Theorem query_logs_empty_retrieval_is_500 (rag : IndustrialRAGSystem)
    (now : string) (request : QueryRequest) :
  (retrieve_relevant_logs rag (query request) 5).2 = Ok [] ->
  (query_system rag now (query request)).2
    = Ok (<["query" := FStr (query request)]>
          (<["relevant_logs" := FLogs []]>
           (<["insight" := FStr NO_LOGS_INSIGHT]> ∅))) /\
  (query_logs (Some rag) now request).2
    = HTTPException 500
        (DetailFailed "Query processing failed"
           (ValidationError ["timestamp"])).
Proof.
  intros Hempty. unfold query_logs.
  rewrite bindM_lift, query_system_retrieve. simpl. rewrite Hempty. simpl.
  split; reflexivity.
Qed.

(** C9.  The [top_k] of a request has no effect: two requests with the
    same query give the same calls and the same response, and every query
    made to the store asks for 5 results. *)
Theorem query_logs_ignores_top_k (rag_system : option IndustrialRAGSystem)
    (now q : string) (k1 k2 : option Z) :
  query_logs rag_system now {| query := q; top_k := k1 |}
  = query_logs rag_system now {| query := q; top_k := k2 |} /\
  (forall embedding n_results,
     In (EvQuery embedding n_results)
        (query_logs rag_system now {| query := q; top_k := k1 |}).1 ->
     n_results = 5%Z).
Proof.
  split; [reflexivity|]. intros embedding n_results.
  destruct rag_system as [rag|]; [|intros []].
  rewrite query_logs_trace, retrieve_trace.
  destruct (encode [query {| query := q; top_k := k1 |}]) as [e|e]; simpl.
  - intros [Hev|[Hev|[]]]; [discriminate Hev | now injection Hev].
  - intros [Hev|[]]. discriminate Hev.
Qed.

(** C5.  The anomaly handler searches the string made of the equipment
    id, the anomaly type and the severity joined by single spaces: the
    calls are those of the retrieval of that string.  When that retrieval
    returns records and the rule engine an insight for them, the response
    has status 200 and carries these records, this insight and the time
    of the call, while its [query] is the label "Anomaly analysis for
    {equipment_id}: {anomaly_type}"; and every response with status 200
    is of this kind. *)
Theorem analyze_anomaly_searches_joined_and_labels
    (rag : IndustrialRAGSystem) (now eid atype sev : string) :
  (analyze_anomaly (Some rag) now
     {| equipment_id := eid; anomaly_type := atype; severity := Some sev |}).1
  = (retrieve_relevant_logs rag (join " " [eid; atype; sev]) 5).1 /\
  (forall logs insight,
     (retrieve_relevant_logs rag (join " " [eid; atype; sev]) 5).2
       = Ok logs ->
     logs <> [] ->
     generate_insight rag (join " " [eid; atype; sev]) logs = Ok insight ->
     (analyze_anomaly (Some rag) now
        {| equipment_id := eid; anomaly_type := atype;
           severity := Some sev |}).2
     = Response200
         {| response_query := "Anomaly analysis for " +:+ eid +:+ ": " +:+ atype;
            response_insight := insight;
            response_relevant_logs := logs;
            response_timestamp := now |}) /\
  (forall body,
     (analyze_anomaly (Some rag) now
        {| equipment_id := eid; anomaly_type := atype;
           severity := Some sev |}).2 = Response200 body ->
     response_query body = anomaly_label eid atype /\
     (retrieve_relevant_logs rag (join " " [eid; atype; sev]) 5).2
       = Ok (response_relevant_logs body) /\
     generate_insight rag (join " " [eid; atype; sev])
       (response_relevant_logs body) = Ok (response_insight body)).
Proof.
  split; [apply analyze_anomaly_trace|].
  unfold analyze_anomaly.
  rewrite bindM_lift, query_system_retrieve. unfold respond, query_result.
  change (equipment_id _ +:+ " " +:+ anomaly_type _ +:+ " "
          +:+ py_str_optional (severity _))
    with (join " " [eid; atype; sev]).
  cbn [equipment_id anomaly_type].
  destruct (retrieve_relevant_logs rag (join " " [eid; atype; sev]) 5)
    as [trace [[|log logs]|e]]; cbn [bind fst snd].
  - split; [|discriminate].
    intros logs insight [= <-] Hne. now contradiction Hne.
  - destruct (generate_insight rag _ (log :: logs)) as [insight|e]
      eqn:Hinsight; cbn [bind].
    + rewrite insert_query_twice, InsightResponse_init_logs. split.
      * intros logs' insight' [= <-] _ Hinsight'.
        rewrite Hinsight in Hinsight'. now injection Hinsight' as <-.
      * intros body [= <-]. simpl. repeat split. exact Hinsight.
    + split; [|discriminate].
      intros logs' insight' [= <-] _ Hinsight'. congruence.
  - split; [|discriminate]. intros logs insight Hlogs. discriminate Hlogs.
Qed.
End HandlerFacts.

(** ** Indexing *)

Lemma searchable_text_cases (row : Dict) :
  (has_fields text_fields row /\ searchable_text row = Ok (joined_fields row))
  \/ (~ has_fields text_fields row /\
      exists field, In field text_fields /\
                    searchable_text row = Raise (KeyError field)).
Proof.
  unfold searchable_text, joined_fields, has_fields, text_fields, getitem,
    field_text.
  destruct (row !! "equipment_id") as [v1|] eqn:E1; simpl;
    [|right; split;
      [rewrite !Forall_cons, E1; intros [[? [=]] _] | eexists; simpl; eauto]].
  destruct (row !! "equipment_type") as [v2|] eqn:E2; simpl;
    [|right; split;
      [rewrite !Forall_cons, E2; intros (_ & [? [=]] & _)
      | eexists; simpl; eauto]].
  destruct (row !! "severity") as [v3|] eqn:E3; simpl;
    [|right; split;
      [rewrite !Forall_cons, E3; intros (_ & _ & [? [=]] & _)
      | eexists; simpl; eauto]].
  destruct (row !! "message") as [v4|] eqn:E4; simpl;
    [|right; split;
      [rewrite !Forall_cons, E4; intros (_ & _ & _ & [? [=]] & _)
      | eexists; simpl; eauto 6]].
  left. split; [|now rewrite ?E1, ?E2, ?E3, ?E4].
  rewrite !Forall_cons, E1, E2, E3, E4. repeat split; eauto.
Qed.

Lemma apply_rows_ok (df : list Dict) :
  Forall (has_fields text_fields) df ->
  apply_rows searchable_text df = Ok (map joined_fields df).
Proof.
  induction 1 as [|row rest Hrow _ IH]; simpl; [reflexivity|].
  destruct (searchable_text_cases row) as [[_ ->]|[Hno _]]; [|contradiction].
  simpl. now rewrite IH.
Qed.

Lemma apply_rows_missing (df : list Dict) :
  Exists (fun row => ~ has_fields text_fields row) df ->
  exists field, In field text_fields /\
                apply_rows searchable_text df = Raise (KeyError field).
Proof.
  induction df as [|row rest IH]; [inversion 1|]. intros Hex. simpl.
  destruct (searchable_text_cases row) as [[Hrow ->]|[_ (field & Hin & ->)]].
  - apply Exists_cons in Hex as [Hno|Hrest]; [contradiction|].
    destruct (IH Hrest) as (field & Hin & ->).
    exists field. split; [assumption | reflexivity].
  - exists field. split; [assumption | reflexivity].
Qed.

Lemma with_searchable_text_joined (df : list Dict) :
  with_searchable_text df (map joined_fields df)
  = map (fun row => <["searchable_text" := VStr (joined_fields row)]> row) df.
Proof.
  unfold with_searchable_text.
  induction df as [|row rest IH]; simpl; [reflexivity | now rewrite IH].
Qed.

Lemma ids_positions {A} (l : list A) :
  map str_of_nat (seq 0 (length l)) = imap (fun i _ => str_of_nat i) l.
Proof.
  assert (Hgen : forall start,
            map str_of_nat (seq start (length l))
            = imap (fun i _ => str_of_nat (start + i)) l).
  { induction l as [|x l IH]; intros start; simpl; [reflexivity|].
    rewrite Nat.add_0_r. f_equal. rewrite IH. apply imap_ext.
    intros i y _. simpl. f_equal. lia. }
  apply Hgen.
Qed.

Section IndexingFacts.
Context `{Backend}.

(** With the four fields in every row, indexing is the two calls: the
    texts are encoded, then added with the batch the specification
    describes. *)
Lemma load_and_index_logs_calls (self : IndustrialRAGSystem)
    (csv_path : string) (df : list Dict) :
  read_csv csv_path = Ok df ->
  Forall (has_fields text_fields) df ->
  load_and_index_logs self csv_path
  = (EvEncode (map joined_fields df)
       :: match encode (map joined_fields df) with
          | Ok embs => [EvAdd (index_batch df embs)]
          | Raise _ => []
          end,
     let* embs := encode (map joined_fields df) in
     let* c := collection_add (collection self) (index_batch df embs) in
     Ok {| collection := c |}).
Proof.
  intros Hread Hrows. unfold load_and_index_logs, lift.
  rewrite Hread. cbn [bindM app]. rewrite apply_rows_ok by assumption.
  cbn [bindM app]. rewrite with_searchable_text_joined, length_map.
  rewrite ids_positions. fold (index_batch df).
  unfold call_encode, call_add, retM, index_batch, bindM.
  destruct (encode (map joined_fields df)) as [embs|e]; [|reflexivity].
  cbn [bind]. destruct (collection_add _ _) as [c|e]; reflexivity.
Qed.

(** C4, as amended.  Indexing checks no field.  It raises [KeyError], and
    calls neither the model nor the store, as soon as a row lacks one of
    the fields the searchable text is made of: equipment_id,
    equipment_type, severity, message.  When every row has these four, it
    succeeds whenever the embedding model and the store accept the batch;
    the timestamp is not looked at. *)
Theorem load_and_index_logs_key_error (self : IndustrialRAGSystem)
    (csv_path : string) (df : list Dict) :
  read_csv csv_path = Ok df ->
  (Exists (fun row => ~ has_fields text_fields row) df ->
   exists field, In field text_fields /\
     load_and_index_logs self csv_path = ([], Raise (KeyError field))) /\
  (Forall (has_fields text_fields) df ->
   forall embs c,
     encode (map joined_fields df) = Ok embs ->
     collection_add (collection self) (index_batch df embs) = Ok c ->
     (load_and_index_logs self csv_path).2 = Ok {| collection := c |}).
Proof.
  intros Hread. split.
  - intros Hex. destruct (apply_rows_missing df Hex) as (field & Hin & Hrows).
    exists field. split; [assumption|].
    unfold load_and_index_logs, lift. rewrite Hread. cbn [bindM app].
    now rewrite Hrows.
  - intros Hrows embs c Hembs Hadd.
    rewrite (load_and_index_logs_calls self csv_path df) by assumption.
    cbn [snd]. rewrite Hembs. cbn [bind]. now rewrite Hadd.
Qed.

(** C6.  For a table of [n] rows that have the four text fields, whose
    texts the model embeds: the texts encoded and stored as documents are
    the equipment id, equipment type, severity and message of each row,
    in this order, joined by single spaces; the ids are the [n] strings
    "0" to "n-1", whatever the state of the instance, so that indexing
    again starts from "0" again; each metadata is the row with its
    text. *)
Theorem load_and_index_logs_entries (self : IndustrialRAGSystem)
    (csv_path : string) (df : list Dict) (embs : list Embedding) :
  read_csv csv_path = Ok df ->
  Forall (has_fields text_fields) df ->
  encode (map joined_fields df) = Ok embs ->
  exists batch,
    (load_and_index_logs self csv_path).1
      = [EvEncode (map joined_fields df); EvAdd batch] /\
    embeddings batch = embs /\
    documents batch = map joined_fields df /\
    length (ids batch) = length df /\
    (forall i, i < length df -> ids batch !! i = Some (str_of_nat i)) /\
    (forall i row, df !! i = Some row ->
       documents batch !! i = Some (joined_fields row) /\
       metadatas batch !! i
         = Some (<["searchable_text" := VStr (joined_fields row)]> row)).
Proof.
  intros Hread Hrows Hembs. exists (index_batch df embs).
  rewrite (load_and_index_logs_calls self csv_path df) by assumption.
  rewrite Hembs. cbn [fst index_batch embeddings documents ids metadatas].
  split; [reflexivity|]. split; [reflexivity|]. split; [reflexivity|].
  split; [apply length_imap|]. split.
  - intros i Hi. rewrite list_lookup_imap.
    destruct (lookup_lt_is_Some_2 df i Hi) as [row ->]. reflexivity.
  - intros i row Hrow. rewrite !list_lookup_fmap, Hrow. split; reflexivity.
Qed.
End IndexingFacts.

(** ** The model on concrete inputs *)

Example str_of_nat_decimal :
  map str_of_nat [0; 1; 9; 10; 3999] = ["0"; "1"; "9"; "10"; "3999"].
Proof. reflexivity. Qed.

Example contains_ignores_case :
  contains "temperature" (lower "pump_01: TEMPERATURE reading") = true /\
  contains "pressure" (lower "pump_01: Temperature reading") = false.
Proof. split; reflexivity. Qed.

(** A start with no data file leaves the index empty and calls no
    collaborator. *)
Example startup_without_data :
  @startup_event (Demo.backend ∅) Demo.loaders = ([], Ok Demo.fresh_rag).
Proof. reflexivity. Qed.

(** A start with the data file indexes its three rows. *)
Example startup_with_data :
  (@startup_event (Demo.backend Demo.files) Demo.loaders).2
  = Ok (Demo.rag_of
          (map (fun row =>
                  <["searchable_text" := VStr (joined_fields row)]> row)
               [Demo.hot; Demo.shaking; Demo.nominal])).
Proof. reflexivity. Qed.

Lemma has_fieldsb_has_fields (fields : list string) (row : Dict) :
  has_fieldsb fields row = true <-> has_fields fields row.
Proof.
  unfold has_fieldsb, has_fields.
  induction fields as [|field rest IH]; simpl.
  - split; [constructor | reflexivity].
  - rewrite andb_true_iff, Forall_cons, IH.
    destruct (row !! field); split; intros [Hf Hr]; split; eauto;
      try discriminate. now destruct Hf.
Qed.

Lemma has_fields_checked (fields : list string) (df : list Dict) :
  forallb (has_fieldsb fields) df = true -> Forall (has_fields fields) df.
Proof.
  induction df as [|row rest IH]; simpl; [constructor|].
  rewrite andb_true_iff. intros [Hrow Hrest].
  constructor; [now apply has_fieldsb_has_fields | now apply IH].
Qed.

Lemma query_logs_empty_retrieval_is_500_witness :
  (retrieve_relevant_logs Demo.fresh_rag "pump temperature issues" 5).2
    = Ok [] /\
  (query_logs (Some Demo.fresh_rag) "2024-05-02T00:00:00"
     (QueryRequest_default "pump temperature issues")).2
    = HTTPException 500
        (DetailFailed "Query processing failed"
           (ValidationError ["timestamp"])).
Proof.
  split; [reflexivity|].
  exact (proj2 (query_logs_empty_retrieval_is_500 Demo.fresh_rag
                  "2024-05-02T00:00:00"
                  (QueryRequest_default "pump temperature issues")
                  eq_refl)).
Defined.

(** With records in the index the same request is answered with status
    200. *)
Example query_logs_with_records :
  query_logs (Some (Demo.rag_of [Demo.nominal; Demo.shaking]))
    "2024-05-02T00:00:00" (QueryRequest_default "pump temperature issues")
  = ([EvEncode ["pump temperature issues"];
      EvQuery (Demo.embedded ["pump temperature issues"]) 5],
     Response200
       {| response_query := "pump temperature issues";
          response_insight := VIBRATION_INSIGHT;
          response_relevant_logs := [Demo.nominal; Demo.shaking];
          response_timestamp := "2024-05-02T00:00:00" |}).
Proof. reflexivity. Qed.

Lemma analyze_anomaly_searches_joined_and_labels_witness :
  (retrieve_relevant_logs (Demo.rag_of [Demo.nominal; Demo.shaking])
     (join " " ["pump_01"; "bearing_wear"; "WARNING"]) 5).2
    = Ok [Demo.nominal; Demo.shaking] /\
  generate_insight (Demo.rag_of [Demo.nominal; Demo.shaking])
    (join " " ["pump_01"; "bearing_wear"; "WARNING"])
    [Demo.nominal; Demo.shaking] = Ok VIBRATION_INSIGHT /\
  analyze_anomaly (Some (Demo.rag_of [Demo.nominal; Demo.shaking]))
    "2024-05-02T00:00:00" (AnomalyRequest_default "pump_01" "bearing_wear")
  = ([EvEncode ["pump_01 bearing_wear WARNING"];
      EvQuery (Demo.embedded ["pump_01 bearing_wear WARNING"]) 5],
     Response200
       {| response_query := "Anomaly analysis for pump_01: bearing_wear";
          response_insight := VIBRATION_INSIGHT;
          response_relevant_logs := [Demo.nominal; Demo.shaking];
          response_timestamp := "2024-05-02T00:00:00" |}).
Proof.
  split; [reflexivity|]. split; [reflexivity|].
  pose proof (analyze_anomaly_searches_joined_and_labels
                (Demo.rag_of [Demo.nominal; Demo.shaking])
                "2024-05-02T00:00:00" "pump_01" "bearing_wear" "WARNING")
    as (Hcalls & Hlabelled & _).
  specialize (Hlabelled [Demo.nominal; Demo.shaking] VIBRATION_INSIGHT
                eq_refl ltac:(discriminate) eq_refl).
  rewrite (surjective_pairing
             (analyze_anomaly (Some (Demo.rag_of [Demo.nominal; Demo.shaking]))
                "2024-05-02T00:00:00"
                (AnomalyRequest_default "pump_01" "bearing_wear"))).
  change (AnomalyRequest_default "pump_01" "bearing_wear")
    with {| equipment_id := "pump_01"; anomaly_type := "bearing_wear";
            severity := Some "WARNING" |}.
  rewrite Hcalls, Hlabelled. reflexivity.
Defined.

Lemma load_and_index_logs_key_error_witness :
  @read_csv (Demo.backend Demo.files) "./data/industrial_logs.csv"
    = Ok [Demo.hot; Demo.shaking; Demo.nominal] /\
  Forall (has_fields text_fields) [Demo.hot; Demo.shaking; Demo.nominal] /\
  (load_and_index_logs Demo.empty_rag "./data/industrial_logs.csv").2
    = Ok (Demo.rag_of
            (metadatas
               (@index_batch (Demo.backend Demo.files)
                  [Demo.hot; Demo.shaking; Demo.nominal]
                  (map joined_fields
                     [Demo.hot; Demo.shaking; Demo.nominal])))).
Proof.
  assert (Hrows : Forall (has_fields text_fields)
                    [Demo.hot; Demo.shaking; Demo.nominal])
    by (apply has_fields_checked; vm_compute; reflexivity).
  split; [reflexivity|]. split; [exact Hrows|].
  exact (proj2 (load_and_index_logs_key_error Demo.empty_rag
                  "./data/industrial_logs.csv"
                  [Demo.hot; Demo.shaking; Demo.nominal] eq_refl)
           Hrows _ _ eq_refl eq_refl).
Defined.

(** C4, as the specification has it, fails twice.  A table whose row has
    no timestamp, a required field, is indexed without error; a table
    whose row has the four required fields and no equipment type is
    refused, with [KeyError] and not [IndexError]. *)
Lemma indexing_required_fields_counterexample :
  (@read_csv (Demo.backend Demo.files) "undated.csv" = Ok [Demo.undated] /\
   ~ has_fields required_fields Demo.undated /\
   (load_and_index_logs Demo.empty_rag "undated.csv").2
     = Ok (Demo.rag_of
             [<["searchable_text" :=
                  VStr "pump_01 pump INFO pump_01: Operating within normal parameters"]>
                Demo.undated])) /\
  (@read_csv (Demo.backend Demo.files) "untyped.csv" = Ok [Demo.untyped] /\
   has_fields required_fields Demo.untyped /\
   load_and_index_logs Demo.empty_rag "untyped.csv"
     = ([], Raise (KeyError "equipment_type"))).
Proof.
  split; (split; [reflexivity|]); split.
  - rewrite <- has_fieldsb_has_fields. vm_compute. discriminate.
  - reflexivity.
  - apply has_fieldsb_has_fields. vm_compute. reflexivity.
  - reflexivity.
Qed.

Lemma load_and_index_logs_entries_witness :
  exists batch,
    (load_and_index_logs Demo.empty_rag "./data/industrial_logs.csv").1
      = [EvEncode (map joined_fields [Demo.hot; Demo.shaking; Demo.nominal]);
         EvAdd batch] /\
    documents batch
      = ["pump_01 pump ERROR pump_01: Temperature reading 88.0 C exceeds normal range (40-60 C)";
         "motor_02 motor WARNING motor_02: Vibration levels elevated to 9.1Hz, potential bearing wear detected";
         "pump_01 pump INFO pump_01: Operating within normal parameters"] /\
    ids batch = ["0"; "1"; "2"].
Proof.
  assert (Hrows : Forall (has_fields text_fields)
                    [Demo.hot; Demo.shaking; Demo.nominal])
    by (apply has_fields_checked; vm_compute; reflexivity).
  destruct (load_and_index_logs_entries Demo.empty_rag
              "./data/industrial_logs.csv"
              [Demo.hot; Demo.shaking; Demo.nominal]
              (map joined_fields [Demo.hot; Demo.shaking; Demo.nominal])
              eq_refl Hrows eq_refl)
    as (batch & Htrace & _ & Hdocs & Hlen & Hids & _).
  exists batch. split; [exact Htrace|]. split.
  - rewrite Hdocs. vm_compute. reflexivity.
  - destruct (ids batch) as [|i0 [|i1 [|i2 [|i3 rest]]]]; try discriminate.
    pose proof (Hids 0 ltac:(simpl; lia)) as H0.
    pose proof (Hids 1 ltac:(simpl; lia)) as H1.
    pose proof (Hids 2 ltac:(simpl; lia)) as H2.
    simpl in H0, H1, H2.
    injection H0 as ->. injection H1 as ->. injection H2 as ->. reflexivity.
Defined.

(** Indexing a second time, on the instance the first left, gives the
    same ids again. *)
Example reindexing_restarts_ids :
  forall stored,
  exists batch,
    (load_and_index_logs (Demo.rag_of stored) "./data/industrial_logs.csv").1
      = [EvEncode (documents batch); EvAdd batch] /\
    ids batch = ["0"; "1"; "2"].
Proof.
  intros stored.
  exists (@index_batch (Demo.backend Demo.files)
            [Demo.hot; Demo.shaking; Demo.nominal]
            (map joined_fields [Demo.hot; Demo.shaking; Demo.nominal])).
  rewrite (load_and_index_logs_calls (Demo.rag_of stored)
             "./data/industrial_logs.csv"
             [Demo.hot; Demo.shaking; Demo.nominal] eq_refl)
    by (apply has_fields_checked; vm_compute; reflexivity).
  split; reflexivity.
Qed.

(** ** The rule engine on records that are not of the data model *)

Lemma has_text_messageb_true (log : Dict) :
  has_text_messageb log = true <-> has_text_message log.
Proof.
  unfold has_text_messageb, has_text_message.
  destruct (log !! "message") as [[s|r]|]; split;
    try discriminate; eauto; intros [s' [=]].
Qed.

Lemma text_messages_checked (logs : list Dict) :
  forallb has_text_messageb logs = true -> Forall has_text_message logs.
Proof.
  induction logs as [|log rest IH]; simpl; [constructor|].
  rewrite andb_true_iff. intros [Hlog Hrest].
  constructor; [now apply has_text_messageb_true | now apply IH].
Qed.

Lemma prompt_fields_lookup (log : Dict) :
  has_fields prompt_fields log <->
  is_Some (log !! "timestamp") /\ is_Some (log !! "message").
Proof.
  unfold has_fields, prompt_fields. rewrite !Forall_cons, Forall_nil. tauto.
Qed.

Lemma context_lines_keys (logs : list Dict) :
  Forall (has_fields prompt_fields) logs ->
  exists lines, context_lines logs = Ok lines.
Proof.
  induction 1 as [|log rest Hlog _ [lines IH]]; simpl; [now exists []|].
  apply prompt_fields_lookup in Hlog as [[ts Hts] [msg Hmsg]].
  unfold getitem. rewrite Hts, Hmsg. simpl. rewrite IH. simpl. eauto.
Qed.

Lemma context_lines_app_raise (pre rest : list Dict) (e : Exn) :
  Forall (has_fields prompt_fields) pre ->
  context_lines rest = Raise e ->
  context_lines (pre ++ rest)%list = Raise e.
Proof.
  induction 1 as [|log pre Hlog _ IH]; intros Hrest; simpl; [exact Hrest|].
  apply prompt_fields_lookup in Hlog as [[ts Hts] [msg Hmsg]].
  unfold getitem. rewrite Hts, Hmsg. simpl. now rewrite IH.
Qed.

Lemma context_lines_errors (logs : list Dict) (e : Exn) :
  context_lines logs = Raise e ->
  e = KeyError "timestamp" \/ e = KeyError "message".
Proof.
  induction logs as [|log rest IH]; simpl; [discriminate|].
  unfold getitem.
  destruct (log !! "timestamp") as [ts|]; simpl; [|intros [= <-]; auto].
  destruct (log !! "message") as [msg|]; simpl; [|intros [= <-]; auto].
  destruct (context_lines rest) as [lines|e']; simpl; [discriminate|].
  intros [= <-]. now apply IH.
Qed.

Lemma any_message_has_errors (keyword : string) (logs : list Dict) (e : Exn) :
  any_message_has keyword logs = Raise e ->
  e = KeyError "message" \/ e = AttributeError "lower".
Proof.
  induction logs as [|log rest IH]; simpl; [discriminate|].
  unfold getitem.
  destruct (log !! "message") as [[s|r]|]; simpl;
    [|intros [= <-]; auto|intros [= <-]; auto].
  destruct (contains keyword (lower s)); [discriminate | exact IH].
Qed.

Lemma any_message_has_app (keyword : string) (pre rest : list Dict) :
  Forall has_text_message pre ->
  any_message_has keyword (pre ++ rest)%list
  = if existsb (mentionsb keyword) pre then Ok true
    else any_message_has keyword rest.
Proof.
  induction 1 as [|log pre [s Hs] _ IH]; simpl; [reflexivity|].
  unfold getitem, mentionsb. rewrite Hs. simpl.
  destruct (contains keyword (lower s)); [reflexivity | exact IH].
Qed.

Lemma any_message_has_text (keyword : string) (logs : list Dict) :
  Forall has_text_message logs ->
  any_message_has keyword logs = Ok (existsb (mentionsb keyword) logs).
Proof.
  intros Hlogs. rewrite <- (app_nil_r logs) at 1.
  rewrite any_message_has_app by assumption.
  now destruct (existsb (mentionsb keyword) logs).
Qed.

Lemma take_3_split (pre post : list Dict) (log : Dict) :
  length pre < 3 ->
  exists post', take 3 (pre ++ log :: post)%list = (pre ++ log :: post')%list.
Proof.
  intros Hlen. rewrite take_app, (take_ge pre) by lia.
  destruct (3 - length pre) as [|n] eqn:Hn; [lia|].
  simpl. eauto.
Qed.

(** X1.  The method returns one of its four sentences, nothing made of the
    query or of the records; and it raises nothing but [KeyError] for
    'timestamp' or 'message' and [AttributeError] for [lower]. *)
Theorem generate_insight_outcomes {Self} (self : Self) (query : string)
    (logs : list Dict) :
  match generate_insight self query logs with
  | Ok insight => In insight insights
  | Raise e =>
      In e [KeyError "timestamp"; KeyError "message"; AttributeError "lower"]
  end.
Proof.
  unfold generate_insight, insights.
  destruct (context_lines (take 3 logs)) as [lines|e] eqn:Hlines; simpl.
  2: { destruct (context_lines_errors _ _ Hlines) as [-> | ->]; auto. }
  destruct (any_message_has "temperature" logs) as [[|]|e] eqn:Ht; simpl;
    auto.
  2: { destruct (any_message_has_errors _ _ _ Ht) as [-> | ->]; auto. }
  destruct (any_message_has "vibration" logs) as [[|]|e] eqn:Hv; simpl;
    auto.
  2: { destruct (any_message_has_errors _ _ _ Hv) as [-> | ->]; auto. }
  destruct (any_message_has "pressure" logs) as [[|]|e] eqn:Hp; simpl;
    auto.
  destruct (any_message_has_errors _ _ _ Hp) as [-> | ->]; auto.
Qed.

(** X2.  Only the first three records need a timestamp: when they have one,
    and every record has a text for message, the method returns what the
    rule table gives for the whole list. *)
Theorem generate_insight_timestamps_of_three {Self} (self : Self)
    (query : string) (logs : list Dict) :
  Forall (has_fields prompt_fields) (take 3 logs) ->
  Forall has_text_message logs ->
  generate_insight self query logs = Ok (rule_table logs).
Proof.
  intros Hthree Hlogs. unfold generate_insight, rule_table.
  destruct (context_lines_keys _ Hthree) as [lines ->]. simpl.
  rewrite !any_message_has_text by assumption. simpl.
  destruct (existsb (mentionsb "temperature") logs); [reflexivity|]. simpl.
  destruct (existsb (mentionsb "vibration") logs); [reflexivity|]. simpl.
  destruct (existsb (mentionsb "pressure") logs); reflexivity.
Qed.

Lemma generate_insight_timestamps_of_three_witness :
  generate_insight Demo.empty_rag "any pressure problem"
    [Demo.nominal; Demo.nominal; Demo.nominal; delete "timestamp" Demo.leaking]
  = Ok PRESSURE_INSIGHT.
Proof.
  assert (Hthree : Forall (has_fields prompt_fields)
                     (take 3 [Demo.nominal; Demo.nominal; Demo.nominal;
                              delete "timestamp" Demo.leaking]))
    by (apply has_fields_checked; vm_compute; reflexivity).
  assert (Htexts : Forall has_text_message
                     [Demo.nominal; Demo.nominal; Demo.nominal;
                      delete "timestamp" Demo.leaking])
    by (apply text_messages_checked; vm_compute; reflexivity).
  exact (generate_insight_timestamps_of_three Demo.empty_rag
           "any pressure problem" _ Hthree Htexts).
Defined.

(** X3.  The prompt comes first.  When one of the first three records lacks
    the timestamp, or has it and lacks the message, the method raises
    [KeyError] for that key, whatever the records mention. *)
Theorem generate_insight_missing_key {Self} (self : Self) (query : string)
    (pre post : list Dict) (log : Dict) :
  length pre < 3 ->
  Forall (has_fields prompt_fields) pre ->
  (log !! "timestamp" = None ->
   generate_insight self query (pre ++ log :: post)%list
   = Raise (KeyError "timestamp")) /\
  (is_Some (log !! "timestamp") -> log !! "message" = None ->
   generate_insight self query (pre ++ log :: post)%list
   = Raise (KeyError "message")).
Proof.
  intros Hlen Hpre. destruct (take_3_split pre post log Hlen) as [post' Htake].
  unfold generate_insight. rewrite Htake. split.
  - intros Hts. rewrite (context_lines_app_raise pre _ (KeyError "timestamp"));
      [reflexivity | assumption |].
    simpl. unfold getitem. now rewrite Hts.
  - intros [ts Hts] Hmsg.
    rewrite (context_lines_app_raise pre _ (KeyError "message"));
      [reflexivity | assumption |].
    simpl. unfold getitem. now rewrite Hts, Hmsg.
Qed.

Lemma generate_insight_missing_key_witness :
  generate_insight Demo.empty_rag "pump_01 temperature"
    [Demo.hot; Demo.undated; Demo.shaking] = Raise (KeyError "timestamp") /\
  generate_insight Demo.empty_rag "pump_01 temperature"
    [Demo.hot; Samples.mute; Demo.shaking] = Raise (KeyError "message").
Proof.
  assert (Hpre : Forall (has_fields prompt_fields) [Demo.hot])
    by (apply has_fields_checked; vm_compute; reflexivity).
  split.
  - exact (proj1 (generate_insight_missing_key Demo.empty_rag
                    "pump_01 temperature" [Demo.hot] [Demo.shaking]
                    Demo.undated ltac:(simpl; lia) Hpre) eq_refl).
  - exact (proj2 (generate_insight_missing_key Demo.empty_rag
                    "pump_01 temperature" [Demo.hot] [Demo.shaking]
                    Samples.mute ltac:(simpl; lia) Hpre)
             (ex_intro _ _ eq_refl) eq_refl).
Defined.

(** X4.  A message that is not a text, as an empty cell of the table gives,
    makes the method raise [AttributeError] when the scan for
    "temperature" reaches it: the first three records have their two
    keys, and the records before it have texts that do not mention the
    temperature. *)
Theorem generate_insight_message_not_text {Self} (self : Self)
    (query repr : string) (pre post : list Dict) (log : Dict) :
  Forall (has_fields prompt_fields) (take 3 (pre ++ log :: post)%list) ->
  Forall has_text_message pre ->
  ~ Exists (mentions "temperature") pre ->
  log !! "message" = Some (VOther repr) ->
  generate_insight self query (pre ++ log :: post)%list
  = Raise (AttributeError "lower").
Proof.
  intros Hthree Hpre Hnone Hmsg. unfold generate_insight.
  destruct (context_lines_keys _ Hthree) as [lines ->]. simpl.
  rewrite any_message_has_app by assumption.
  apply existsb_no_mention in Hnone; [|reflexivity]. rewrite Hnone.
  simpl. unfold getitem. now rewrite Hmsg.
Qed.

Lemma generate_insight_message_not_text_witness :
  generate_insight Demo.empty_rag "pump_01 temperature"
    [Demo.nominal; Samples.blank; Demo.hot] = Raise (AttributeError "lower").
Proof.
  assert (Hthree : Forall (has_fields prompt_fields)
                     (take 3 ([Demo.nominal] ++ Samples.blank :: [Demo.hot])%list))
    by (apply has_fields_checked; vm_compute; reflexivity).
  assert (Hpre : Forall has_text_message [Demo.nominal])
    by (apply text_messages_checked; vm_compute; reflexivity).
  assert (Hnone : ~ Exists (mentions "temperature") [Demo.nominal])
    by (apply existsb_no_mention; vm_compute; reflexivity).
  exact (generate_insight_message_not_text Demo.empty_rag
           "pump_01 temperature" "nan" [Demo.nominal] [Demo.hot]
           Samples.blank Hthree Hpre Hnone eq_refl).
Defined.

(** X5.  The scan stops at the first mention of the temperature.  When the
    first three records have their two keys and the records before the
    mention have texts, the temperature sentence is returned and the
    records after it are not read: they may lack the message. *)
Theorem generate_insight_stops_at_temperature {Self} (self : Self)
    (query : string) (pre post : list Dict) (hit : Dict) :
  Forall (has_fields prompt_fields) (take 3 (pre ++ hit :: post)%list) ->
  Forall has_text_message pre ->
  mentions "temperature" hit ->
  generate_insight self query (pre ++ hit :: post)%list
  = Ok TEMPERATURE_INSIGHT.
Proof.
  intros Hthree Hpre Hhit. unfold generate_insight.
  destruct (context_lines_keys _ Hthree) as [lines ->]. simpl.
  rewrite any_message_has_app by assumption.
  destruct (existsb (mentionsb "temperature") pre); [reflexivity|].
  apply mentionsb_mentions in Hhit; [|reflexivity].
  unfold mentionsb in Hhit. simpl. unfold getitem.
  destruct (hit !! "message") as [[s|r]|]; try discriminate.
  simpl. now rewrite Hhit.
Qed.

Lemma generate_insight_stops_at_temperature_witness :
  generate_insight Demo.empty_rag "pump_01 temperature"
    [Demo.nominal; Demo.hot; Demo.shaking; Samples.mute; Samples.blank]
  = Ok TEMPERATURE_INSIGHT.
Proof.
  assert (Hthree : Forall (has_fields prompt_fields)
                     (take 3 ([Demo.nominal] ++ Demo.hot ::
                              [Demo.shaking; Samples.mute; Samples.blank])%list))
    by (apply has_fields_checked; vm_compute; reflexivity).
  assert (Hpre : Forall has_text_message [Demo.nominal])
    by (apply text_messages_checked; vm_compute; reflexivity).
  assert (Hhit : mentions "temperature" Demo.hot)
    by (apply mentionsb_mentions; vm_compute; reflexivity).
  exact (generate_insight_stops_at_temperature Demo.empty_rag
           "pump_01 temperature" [Demo.nominal]
           [Demo.shaking; Samples.mute; Samples.blank] Demo.hot
           Hthree Hpre Hhit).
Defined.

(** ** Retrieval and the handlers, in full *)

Lemma generate_insight_not_no_logs {Self} (self : Self) (query : string)
    (logs : list Dict) :
  generate_insight self query logs <> Ok NO_LOGS_INSIGHT.
Proof.
  unfold generate_insight.
  destruct (context_lines (take 3 logs)); simpl; [|discriminate].
  destruct (any_message_has "temperature" logs) as [[|]|]; simpl;
    try discriminate.
  destruct (any_message_has "vibration" logs) as [[|]|]; simpl;
    try discriminate.
  destruct (any_message_has "pressure" logs) as [[|]|]; simpl;
    discriminate.
Qed.

Lemma generate_insight_in_insights {Self} (self : Self) (query : string)
    (logs : list Dict) (insight : string) :
  generate_insight self query logs = Ok insight -> In insight insights.
Proof.
  unfold generate_insight, insights.
  destruct (context_lines (take 3 logs)); simpl; [|discriminate].
  destruct (any_message_has "temperature" logs) as [[|]|]; simpl;
    try discriminate; [intros [= <-]; simpl; auto|].
  destruct (any_message_has "vibration" logs) as [[|]|]; simpl;
    try discriminate; [intros [= <-]; simpl; auto|].
  destruct (any_message_has "pressure" logs) as [[|]|]; simpl;
    try discriminate; intros [= <-]; simpl; auto.
Qed.

Section ServiceFacts.
Context `{Backend}.

Lemma retrieve_result (self : IndustrialRAGSystem) (query : string)
    (top_k : Z) :
  (retrieve_relevant_logs self query top_k).2
  = let* embedding := encode [query] in
    let* results := collection_query (collection self) embedding top_k in
    Ok (first_metadatas results).
Proof.
  unfold retrieve_relevant_logs, call_encode, call_query, bindM, retM,
    first_metadatas.
  destruct (encode [query]) as [embedding|e]; [|reflexivity]. simpl.
  destruct (collection_query _ _ _) as [results|e]; reflexivity.
Qed.

(** X6.  The retrieval fails only when the embedding model or the store does,
    with their exception; otherwise it returns the first list of
    metadata the store gave, and the empty list when the store gave
    none. *)
Theorem retrieve_relevant_logs_outcome (self : IndustrialRAGSystem)
    (query : string) (top_k : Z) :
  (forall e,
     (retrieve_relevant_logs self query top_k).2 = Raise e <->
     encode [query] = Raise e \/
     exists embedding, encode [query] = Ok embedding /\
       collection_query (collection self) embedding top_k = Raise e) /\
  (forall logs,
     (retrieve_relevant_logs self query top_k).2 = Ok logs <->
     exists embedding results, encode [query] = Ok embedding /\
       collection_query (collection self) embedding top_k = Ok results /\
       logs = first_metadatas results).
Proof.
  rewrite retrieve_result.
  destruct (encode [query]) as [embedding|e0]; simpl.
  - destruct (collection_query (collection self) embedding top_k)
      as [results|e1] eqn:Hq; simpl; split.
    + intros e. split; [discriminate|].
      intros [Henc|(emb & [= <-] & Hraise)]; congruence.
    + intros logs. split.
      * intros [= <-]. now exists embedding, results.
      * intros (emb & res & [= <-] & Hres & ->). congruence.
    + intros e. split.
      * intros [= <-]. right. now exists embedding.
      * intros [Henc|(emb & [= <-] & Hraise)]; congruence.
    + intros logs. split; [discriminate|].
      intros (emb & res & [= <-] & Hres & _). congruence.
  - split.
    + intros e. split; [intros [= <-]; now left|].
      intros [Henc|(emb & Henc & _)]; congruence.
    + intros logs. split; [discriminate|].
      intros (emb & res & Henc & _). discriminate Henc.
Qed.

(** X7.  The retrieval encodes the query alone, once, and then asks the
    store once, for exactly [top_k] results and with the embedding the
    model gave: these are all its calls, [top_k] is handed on as it is,
    zero and negative numbers too, and the store is not asked when the
    encoding fails. *)
Theorem retrieve_relevant_logs_asks_top_k (self : IndustrialRAGSystem)
    (query : string) (top_k : Z) :
  (retrieve_relevant_logs self query top_k).1
  = (EvEncode [query]
       :: match encode [query] with
          | Ok embedding => [EvQuery embedding top_k]
          | Raise _ => []
          end) /\
  (forall embedding n_results,
     In (EvQuery embedding n_results)
        (retrieve_relevant_logs self query top_k).1 <->
     encode [query] = Ok embedding /\ n_results = top_k).
Proof.
  rewrite retrieve_trace.
  destruct (encode [query]) as [emb|e]; (split; [reflexivity|]);
    intros embedding n_results; simpl; split.
  - intros [Hev|[Hev|[]]]; [discriminate Hev|]. now injection Hev as <- <-.
  - intros [[= <-] ->]. auto.
  - intros [Hev|[]]. discriminate Hev.
  - intros [Henc _]. discriminate Henc.
Qed.

(** X8.  The dictionary [query_system] returns: the query as given and the
    records retrieved; the insight is the "No relevant logs" sentence
    exactly when nothing was retrieved, and exactly then the dictionary
    has no timestamp. *)
Theorem query_system_dictionary (self : IndustrialRAGSystem)
    (now query : string) (result : gmap string Field) :
  (query_system self now query).2 = Ok result ->
  field_str result "query" = Some query /\
  exists logs,
    (retrieve_relevant_logs self query 5).2 = Ok logs /\
    field_logs result "relevant_logs" = Some logs /\
    (logs = [] <-> field_str result "insight" = Some NO_LOGS_INSIGHT) /\
    (logs = [] <-> result !! "timestamp" = None) /\
    (logs <> [] -> result !! "timestamp" = Some (FStr now)).
Proof.
  rewrite query_system_retrieve. cbn [snd].
  destruct (retrieve_relevant_logs self query 5) as [trace [logs|e]];
    cbn [snd bind]; [|discriminate].
  unfold query_result. destruct logs as [|log logs].
  - intros [= <-]. split; [reflexivity|]. exists []. repeat split; auto.
    intros Hne. now contradiction Hne.
  - destruct (generate_insight self query (log :: logs)) as [insight|e]
      eqn:Hinsight; cbn [bind]; [|discriminate].
    intros [= <-]. split; [reflexivity|]. exists (log :: logs).
    split; [reflexivity|]. split; [reflexivity|].
    repeat split; try discriminate; auto.
    intros Hno. exfalso.
    apply (generate_insight_not_no_logs self query (log :: logs)).
    change (field_str _ "insight") with (Some insight) in Hno.
    injection Hno as ->. exact Hinsight.
Qed.
End ServiceFacts.

Section HandlerOutcomes.
Context `{Backend}.

(** What the two handlers have in common, on an instance. *)
Lemma respond_cases (failed : string) (rag : IndustrialRAGSystem)
    (now query : string) (label : option string) :
  let result :=
    respond failed
      (let! result := query_system rag now query in
       lift (InsightResponse_init
               (match label with
                | Some l => <["query" := FStr l]> result
                | None => result
                end))) in
  let shown := match label with Some l => l | None => query end in
  match (retrieve_relevant_logs rag query 5).2 with
  | Raise e => result.2 = HTTPException 500 (DetailFailed failed e)
  | Ok [] =>
      result.2
      = HTTPException 500 (DetailFailed failed (ValidationError ["timestamp"]))
  | Ok (log :: logs) =>
      match generate_insight rag query (log :: logs) with
      | Raise e => result.2 = HTTPException 500 (DetailFailed failed e)
      | Ok insight =>
          result.2
          = Response200 {| response_query := shown;
                           response_insight := insight;
                           response_relevant_logs := log :: logs;
                           response_timestamp := now |}
      end
  end.
Proof.
  cbv zeta. rewrite bindM_lift, query_system_retrieve. unfold respond.
  destruct (retrieve_relevant_logs rag query 5) as [trace [[|log logs]|e]];
    cbn [fst snd bind query_result].
  - destruct label; reflexivity.
  - destruct (generate_insight rag query (log :: logs)) as [insight|e];
      cbn [bind]; [|reflexivity].
    destruct label; [rewrite insert_query_twice|];
      now rewrite InsightResponse_init_logs.
  - reflexivity.
Qed.

Lemma query_logs_cases (rag : IndustrialRAGSystem) (now : string)
    (request : QueryRequest) :
  match (retrieve_relevant_logs rag (query request) 5).2 with
  | Raise e =>
      (query_logs (Some rag) now request).2
      = HTTPException 500 (DetailFailed "Query processing failed" e)
  | Ok [] =>
      (query_logs (Some rag) now request).2
      = HTTPException 500
          (DetailFailed "Query processing failed"
             (ValidationError ["timestamp"]))
  | Ok (log :: logs) =>
      match generate_insight rag (query request) (log :: logs) with
      | Raise e =>
          (query_logs (Some rag) now request).2
          = HTTPException 500 (DetailFailed "Query processing failed" e)
      | Ok insight =>
          (query_logs (Some rag) now request).2
          = Response200 {| response_query := query request;
                           response_insight := insight;
                           response_relevant_logs := log :: logs;
                           response_timestamp := now |}
      end
  end.
Proof.
  exact (respond_cases "Query processing failed" rag now (query request) None).
Qed.

(** X9.  A handler answers 200, 500 or 503 and nothing else: 503, with no call
    to the model or the store, exactly when there is no instance;
    otherwise the response model, or 500 with the exception caught. *)
Theorem handlers_status_codes (rag_system : option IndustrialRAGSystem)
    (now : string) (request : QueryRequest) (anomaly : AnomalyRequest) :
  (rag_system = None ->
   query_logs rag_system now request
   = ([], HTTPException 503 (DetailText "RAG system not initialized")) /\
   analyze_anomaly rag_system now anomaly
   = ([], HTTPException 503 (DetailText "RAG system not initialized"))) /\
  (rag_system <> None ->
   ((exists body, (query_logs rag_system now request).2 = Response200 body) \/
    (exists e, (query_logs rag_system now request).2
               = HTTPException 500 (DetailFailed "Query processing failed" e)))
   /\
   ((exists body,
       (analyze_anomaly rag_system now anomaly).2 = Response200 body) \/
    (exists e, (analyze_anomaly rag_system now anomaly).2
               = HTTPException 500 (DetailFailed "Anomaly analysis failed" e)))).
Proof.
  split.
  - intros ->. split; reflexivity.
  - destruct rag_system as [rag|]; [intros _ | intros Hne; now contradiction Hne].
    split.
    + pose proof (query_logs_cases rag now request) as Hc.
      destruct (retrieve_relevant_logs rag (query request) 5).2
        as [[|log logs]|e]; eauto.
      destruct (generate_insight rag (query request) (log :: logs)); eauto.
    + pose proof (respond_cases "Anomaly analysis failed" rag now
                    (equipment_id anomaly +:+ " " +:+ anomaly_type anomaly
                     +:+ " " +:+ py_str_optional (severity anomaly))
                    (Some ("Anomaly analysis for " +:+ equipment_id anomaly
                           +:+ ": " +:+ anomaly_type anomaly))) as Hc.
      cbv zeta in Hc. unfold analyze_anomaly.
      destruct (retrieve_relevant_logs rag _ 5).2 as [[|log logs]|e]; eauto.
      destruct (generate_insight rag _ (log :: logs)); eauto.
Qed.
End HandlerOutcomes.

Section HandlerBodies.
Context `{Backend}.

(** X10.  A 200 of [POST /query] carries the query of the request, the time of
    the call, the records retrieved for that query, which are never none,
    and the sentence the rule engine gives for them. *)
Theorem query_logs_ok_body (rag_system : option IndustrialRAGSystem)
    (now : string) (request : QueryRequest) (body : InsightResponse) :
  (query_logs rag_system now request).2 = Response200 body ->
  exists rag, rag_system = Some rag /\
    response_query body = query request /\
    response_timestamp body = now /\
    response_relevant_logs body <> [] /\
    (retrieve_relevant_logs rag (query request) 5).2
      = Ok (response_relevant_logs body) /\
    generate_insight rag (query request) (response_relevant_logs body)
      = Ok (response_insight body) /\
    In (response_insight body) insights.
Proof.
  destruct rag_system as [rag|]; [|discriminate]. intros Hbody.
  exists rag. split; [reflexivity|].
  pose proof (query_logs_cases rag now request) as Hc.
  destruct (retrieve_relevant_logs rag (query request) 5).2
    as [[|log logs]|e]; try congruence.
  destruct (generate_insight rag (query request) (log :: logs))
    as [insight|e] eqn:Hinsight; [|congruence].
  rewrite Hc in Hbody. injection Hbody as <-. cbn.
  repeat split; try discriminate; trivial.
  exact (generate_insight_in_insights rag _ _ _ Hinsight).
Qed.

(** X11.  The three ways [POST /query] answers 500 on an instance: the
    retrieval raised; it returned nothing, and the response model refused
    the dictionary without timestamp; or the rule engine raised on the
    records retrieved. *)
Theorem query_logs_failure_causes (rag : IndustrialRAGSystem)
    (now : string) (request : QueryRequest) (e : Exn) :
  (query_logs (Some rag) now request).2
    = HTTPException 500 (DetailFailed "Query processing failed" e) <->
  (retrieve_relevant_logs rag (query request) 5).2 = Raise e \/
  ((retrieve_relevant_logs rag (query request) 5).2 = Ok [] /\
   e = ValidationError ["timestamp"]) \/
  (exists logs,
     (retrieve_relevant_logs rag (query request) 5).2 = Ok logs /\
     logs <> [] /\
     generate_insight rag (query request) logs = Raise e).
Proof.
  pose proof (query_logs_cases rag now request) as Hc.
  destruct (retrieve_relevant_logs rag (query request) 5).2
    as [[|log logs]|e0].
  - rewrite Hc. split.
    + intros [= <-]. right. left. auto.
    + intros [Hr|[[_ ->]|(logs & [= <-] & Hne & _)]];
        [discriminate Hr | reflexivity | now contradiction Hne].
  - destruct (generate_insight rag (query request) (log :: logs))
      as [insight|e1] eqn:Hinsight; rewrite Hc; split.
    + discriminate.
    + intros [Hr|[[Hr _]|(l & [= <-] & _ & Hraise)]];
        [discriminate Hr | discriminate Hr | congruence].
    + intros [= <-]. right. right. exists (log :: logs).
      repeat split; [discriminate | exact Hinsight].
    + intros [Hr|[[Hr _]|(l & [= <-] & _ & Hraise)]];
        [discriminate Hr | discriminate Hr | congruence].
  - rewrite Hc. split.
    + intros [= <-]. now left.
    + intros [[= <-]|[[Hr _]|(l & Hr & _)]];
        [reflexivity | discriminate Hr | discriminate Hr].
Qed.

(** X12.  [POST /analyze_anomaly] is [POST /query] for the three fields joined
    by spaces, an absent severity being written None: the same calls, and
    the same response but for the label in place of the query and the
    words before the cause of a failure. *)
Theorem analyze_anomaly_is_relabelled_query
    (rag_system : option IndustrialRAGSystem) (now : string)
    (request : AnomalyRequest) (k : option Z) :
  analyze_anomaly rag_system now request
  = ((query_logs rag_system now
        {| query := join " " [equipment_id request; anomaly_type request;
                              py_str_optional (severity request)];
           top_k := k |}).1,
     relabel (anomaly_label (equipment_id request) (anomaly_type request))
       "Anomaly analysis failed"
       (query_logs rag_system now
          {| query := join " " [equipment_id request; anomaly_type request;
                                py_str_optional (severity request)];
             top_k := k |}).2).
Proof.
  destruct rag_system as [rag|]; [|reflexivity].
  set (q := join " " [equipment_id request; anomaly_type request;
                      py_str_optional (severity request)]).
  pose proof (query_logs_cases rag now {| query := q; top_k := k |}) as Hq.
  pose proof (respond_cases "Anomaly analysis failed" rag now q
                (Some (anomaly_label (equipment_id request)
                         (anomaly_type request)))) as Ha.
  cbv zeta in Ha. cbn [query] in Hq.
  rewrite (surjective_pairing (analyze_anomaly (Some rag) now request)).
  f_equal.
  - rewrite query_logs_trace. apply analyze_anomaly_trace.
  - change ((analyze_anomaly (Some rag) now request).2)
      with ((respond "Anomaly analysis failed"
               (let! result := query_system rag now q in
                lift (InsightResponse_init
                        (<["query" := FStr (anomaly_label
                                              (equipment_id request)
                                              (anomaly_type request))]>
                           result)))).2).
    destruct (retrieve_relevant_logs rag q 5).2 as [[|log logs]|e];
      [now rewrite Ha, Hq | | now rewrite Ha, Hq].
    destruct (generate_insight rag q (log :: logs));
      now rewrite Ha, Hq.
Qed.

(** X13.  [GET /health] says the instance is there exactly when [POST /query]
    does not answer 503. *)
Theorem health_check_agrees_with_query
    (rag_system : option IndustrialRAGSystem) (now : string)
    (request : QueryRequest) :
  rag_system_initialized (health_check rag_system now) = false <->
  exists detail,
    (query_logs rag_system now request).2 = HTTPException 503 detail.
Proof.
  destruct rag_system as [rag|]; cbn [health_check rag_system_initialized].
  - split; [discriminate|]. intros [detail Hd].
    pose proof (query_logs_cases rag now request) as Hc.
    destruct (retrieve_relevant_logs rag (query request) 5).2
      as [[|log logs]|e]; try congruence.
    destruct (generate_insight rag (query request) (log :: logs));
      congruence.
  - split; [|reflexivity]. intros _. eexists. reflexivity.
Qed.
End HandlerBodies.

(** ** Indexing, in full *)

Lemma str_of_nat_inj (i j : nat) : str_of_nat i = str_of_nat j -> i = j.
Proof.
  unfold str_of_nat. intros Heq.
  apply DecimalNat.Unsigned.to_uint_inj.
  pose proof (NilEmpty.usu (Nat.to_uint i)) as Hi.
  pose proof (NilEmpty.usu (Nat.to_uint j)) as Hj.
  rewrite Heq in Hi. congruence.
Qed.

Lemma apply_rows_texts (df : list Dict) (texts : list string) :
  apply_rows searchable_text df = Ok texts ->
  Forall (has_fields text_fields) df /\ texts = map joined_fields df.
Proof.
  revert texts. induction df as [|row rest IH]; simpl; intros texts.
  - intros [= <-]. split; [constructor | reflexivity].
  - destruct (searchable_text_cases row) as [[Hrow ->]|[_ (f & _ & ->)]];
      simpl; [|discriminate].
    destruct (apply_rows searchable_text rest) as [others|e]; simpl;
      [|discriminate].
    intros [= <-]. destruct (IH others eq_refl) as [Hrest ->].
    split; [now constructor | reflexivity].
Qed.

Section IndexingOutcomes.
Context `{Backend}.

(** The method, step by step. *)
Lemma load_and_index_logs_steps (self : IndustrialRAGSystem)
    (csv_path : string) :
  load_and_index_logs self csv_path
  = match read_csv csv_path with
    | Raise e => ([], Raise e)
    | Ok df =>
        match apply_rows searchable_text df with
        | Raise e => ([], Raise e)
        | Ok texts =>
            match encode texts with
            | Raise e => ([EvEncode texts], Raise e)
            | Ok embs =>
                let batch :=
                  {| embeddings := embs;
                     documents := texts;
                     metadatas := with_searchable_text df texts;
                     ids := map str_of_nat
                              (seq 0 (length (with_searchable_text df texts)))
                  |} in
                ([EvEncode texts; EvAdd batch],
                 let* c := collection_add (collection self) batch in
                 Ok {| collection := c |})
            end
        end
    end.
Proof.
  unfold load_and_index_logs, lift, call_encode, call_add, retM.
  destruct (read_csv csv_path) as [df|e]; cbn [bindM app]; [|reflexivity].
  destruct (apply_rows searchable_text df) as [texts|e]; cbn [bindM app];
    [|reflexivity].
  destruct (encode texts) as [embs|e]; cbn [bindM app]; [|reflexivity].
  destruct (collection_add _ _) as [c|e]; reflexivity.
Qed.

Lemma load_and_index_logs_added (self : IndustrialRAGSystem)
    (csv_path : string) (batch : AddBatch Embedding) :
  In (EvAdd batch) (load_and_index_logs self csv_path).1 ->
  exists df,
    read_csv csv_path = Ok df /\
    Forall (has_fields text_fields) df /\
    encode (map joined_fields df) = Ok (embeddings batch) /\
    batch = index_batch df (embeddings batch) /\
    (load_and_index_logs self csv_path).2
    = (let* c := collection_add (collection self) batch in
       Ok {| collection := c |}).
Proof.
  rewrite load_and_index_logs_steps.
  destruct (read_csv csv_path) as [df|e]; [|intros []].
  destruct (apply_rows searchable_text df) as [texts|e] eqn:Htexts;
    [|intros []].
  apply apply_rows_texts in Htexts as [Hrows ->].
  destruct (encode (map joined_fields df)) as [embs|e] eqn:Hembs; cbn [fst snd].
  - intros [Hev|[Hev|[]]]; [discriminate Hev|]. injection Hev as <-.
    exists df. cbn [embeddings].
    rewrite with_searchable_text_joined, length_map, ids_positions.
    repeat split; trivial.
  - intros [Hev|[]]. discriminate Hev.
Qed.

(** X14.  The ids of one indexing are pairwise distinct, and the documents, the
    metadata and the ids handed to the store are as many as the rows of
    the table. *)
Theorem load_and_index_logs_ids_distinct (self : IndustrialRAGSystem)
    (csv_path : string) (batch : AddBatch Embedding) :
  In (EvAdd batch) (load_and_index_logs self csv_path).1 ->
  NoDup (ids batch) /\
  exists df,
    read_csv csv_path = Ok df /\
    length (ids batch) = length df /\
    length (documents batch) = length df /\
    length (metadatas batch) = length df.
Proof.
  intros Hadd.
  destruct (load_and_index_logs_added self csv_path batch Hadd)
    as (df & Hread & _ & _ & -> & _).
  cbn [index_batch ids documents metadatas]. split.
  - rewrite <- ids_positions. apply NoDup_fmap_2; [|apply NoDup_seq].
    intros i j. apply str_of_nat_inj.
  - exists df. rewrite length_imap, !length_map. auto.
Qed.

(** X15.  Two indexings give the same ids as far as the shorter goes, whatever
    the instances and the tables: the ids of the second are again those of
    the first. *)
Theorem load_and_index_logs_ids_collide (self1 self2 : IndustrialRAGSystem)
    (csv_path1 csv_path2 : string) (batch1 batch2 : AddBatch Embedding) :
  In (EvAdd batch1) (load_and_index_logs self1 csv_path1).1 ->
  In (EvAdd batch2) (load_and_index_logs self2 csv_path2).1 ->
  length (ids batch1) <= length (ids batch2) ->
  ids batch1 `prefix_of` ids batch2.
Proof.
  intros Hadd1 Hadd2.
  destruct (load_and_index_logs_added _ _ _ Hadd1) as (df1 & _ & _ & _ & -> & _).
  destruct (load_and_index_logs_added _ _ _ Hadd2) as (df2 & _ & _ & _ & -> & _).
  cbn [index_batch ids]. rewrite <- !ids_positions, !length_map, !length_seq.
  intros Hle.
  exists (map str_of_nat (seq (length df1) (length df2 - length df1))).
  rewrite <- map_app, <- seq_app. do 2 f_equal. lia.
Qed.

(** X16.  Indexing never queries the store, and writes to it only after the
    table was read, every row had its four fields and the model gave the
    embeddings of the documents written; it succeeds exactly when the
    store then accepts the batch. *)
Theorem load_and_index_logs_writes_last (self : IndustrialRAGSystem)
    (csv_path : string) :
  (forall embedding n_results,
     ~ In (EvQuery embedding n_results)
          (load_and_index_logs self csv_path).1) /\
  (forall batch,
     In (EvAdd batch) (load_and_index_logs self csv_path).1 ->
     exists df,
       read_csv csv_path = Ok df /\
       Forall (has_fields text_fields) df /\
       documents batch = map joined_fields df /\
       encode (documents batch) = Ok (embeddings batch)) /\
  (forall self',
     (load_and_index_logs self csv_path).2 = Ok self' <->
     exists batch,
       In (EvAdd batch) (load_and_index_logs self csv_path).1 /\
       collection_add (collection self) batch = Ok (collection self')).
Proof.
  split; [|split].
  - intros embedding n_results. rewrite load_and_index_logs_steps.
    destruct (read_csv csv_path) as [df|e]; [|intros []].
    destruct (apply_rows searchable_text df) as [texts|e]; [|intros []].
    destruct (encode texts) as [embs|e]; cbn [fst].
    + intros [Hev|[Hev|[]]]; discriminate Hev.
    + intros [Hev|[]]. discriminate Hev.
  - intros batch Hadd.
    destruct (load_and_index_logs_added self csv_path batch Hadd)
      as (df & Hread & Hrows & Hembs & Hbatch & _).
    exists df. rewrite Hbatch at 1 2. cbn [index_batch documents].
    auto.
  - intros self'. split.
    + rewrite load_and_index_logs_steps.
      destruct (read_csv csv_path) as [df|e]; [|discriminate].
      destruct (apply_rows searchable_text df) as [texts|e]; [|discriminate].
      destruct (encode texts) as [embs|e]; cbn [fst snd]; [|discriminate].
      destruct (collection_add _ _) as [c|e] eqn:Hc; cbn [bind];
        [|discriminate].
      intros [= <-]. eexists. split; [right; left; reflexivity|].
      exact Hc.
    + intros (batch & Hadd & Hc).
      destruct (load_and_index_logs_added self csv_path batch Hadd)
        as (_ & _ & _ & _ & _ & ->).
      rewrite Hc. cbn [bind]. now destruct self'.
Qed.
End IndexingOutcomes.

Lemma searchable_text_first_missing (row : Dict) (before after : list string)
    (field : string) :
  text_fields = (before ++ field :: after)%list ->
  has_fields before row ->
  row !! field = None ->
  searchable_text row = Raise (KeyError field).
Proof.
  unfold text_fields, has_fields. intros Hsplit Hbefore Hnone.
  destruct before as [|b1 [|b2 [|b3 [|b4 more]]]]; simpl in Hsplit;
    injection Hsplit as <-; subst;
    repeat match goal with
           | Hf : Forall _ (_ :: _) |- _ =>
               apply Forall_cons in Hf as [[? ?] Hf]
           end;
    unfold searchable_text, getitem;
    repeat match goal with
           | Hl : _ !! _ = _ |- _ => rewrite Hl; clear Hl
           end;
    try reflexivity.
  destruct more; discriminate.
Qed.

Lemma apply_rows_app_raise {A} (f : Dict -> Result A) (good rest : list Dict)
    (e : Exn) :
  (forall row, In row good -> exists a, f row = Ok a) ->
  apply_rows f rest = Raise e ->
  apply_rows f (good ++ rest)%list = Raise e.
Proof.
  induction good as [|row good IH]; intros Hgood Hrest; simpl; [exact Hrest|].
  destruct (Hgood row (or_introl eq_refl)) as [a ->]. simpl.
  rewrite IH; [reflexivity | | exact Hrest].
  intros r Hr. apply Hgood. now right.
Qed.

Section IndexingErrors.
Context `{Backend}.

(** X17.  The [KeyError] of an indexing names the first field, in the order
    equipment_id, equipment_type, severity, message, that the first
    incomplete row lacks; no call has been made then. *)
Theorem load_and_index_logs_names_first_missing
    (self : IndustrialRAGSystem) (csv_path : string)
    (good rest : list Dict) (bad : Dict) (before after : list string)
    (field : string) :
  read_csv csv_path = Ok (good ++ bad :: rest)%list ->
  Forall (has_fields text_fields) good ->
  text_fields = (before ++ field :: after)%list ->
  has_fields before bad ->
  bad !! field = None ->
  load_and_index_logs self csv_path = ([], Raise (KeyError field)).
Proof.
  intros Hread Hgood Hsplit Hbefore Hnone.
  rewrite load_and_index_logs_steps, Hread.
  rewrite (apply_rows_app_raise searchable_text good (bad :: rest)
             (KeyError field)); [reflexivity | |].
  - intros row Hin. rewrite Forall_forall in Hgood.
    apply list_elem_of_In in Hin.
    destruct (searchable_text_cases row) as [[_ ->]|[Hno _]]; eauto.
    now contradiction Hno; apply Hgood.
  - simpl.
    now rewrite (searchable_text_first_missing bad before after field).
Qed.
End IndexingErrors.

(** ** Start of the application *)

Lemma find_first_existing {A} (p : A -> bool) (before after : list A) (x : A) :
  Forall (fun y => p y = false) before ->
  p x = true ->
  List.find p (before ++ x :: after)%list = Some x.
Proof.
  induction 1 as [|y before Hy _ IH]; intros Hx; simpl.
  - now rewrite Hx.
  - rewrite Hy. now apply IH.
Qed.

Lemma find_none_existing {A} (p : A -> bool) (l : list A) :
  Forall (fun y => p y = false) l -> List.find p l = None.
Proof. induction 1 as [|y l Hy _ IH]; simpl; [|rewrite Hy]; trivial. Qed.

Section StartupFacts.
Context `{Backend} `{Loaders}.

(** The constructor calls neither [encode], [add] nor [query]; it
    returns when its four loads do, and raises what the first of them to
    fail raises. *)
Lemma init_outcome (model_name : string) :
  __init__ model_name
  = ([], let* embedding_model := SentenceTransformer model_name in
         let* chroma_client := chromadb_Client in
         let* c := create_collection in
         let* llm := pipeline "text-generation" "microsoft/DialoGPT-medium" in
         Ok {| collection := c |}).
Proof.
  unfold __init__, lift, retM, bindM.
  destruct (SentenceTransformer model_name); [|reflexivity].
  destruct chromadb_Client; [|reflexivity].
  destruct create_collection; [|reflexivity].
  now destruct (pipeline _ _).
Qed.

(** X18.  When the constructor's loads succeed (the sentence-transformer
    model, the database client, the collection, the text-generation
    pipeline) and none of the five paths exists, the application starts
    with the empty collection just created, and calls neither the model
    nor the store; when one of the loads raises, the start raises the
    same, whatever paths exist. *)
Theorem startup_event_without_data (c : Collection) :
  (Forall (fun path => path_exists path = false) data_paths ->
   SentenceTransformer model_name_default = Ok tt ->
   chromadb_Client = Ok tt ->
   create_collection = Ok c ->
   pipeline "text-generation" "microsoft/DialoGPT-medium" = Ok tt ->
   startup_event = ([], Ok {| collection := c |})) /\
  (forall e,
     (__init__ model_name_default).2 = Raise e ->
     startup_event = ([], Raise e)).
Proof.
  unfold startup_event. rewrite init_outcome. split.
  - intros Hnone Hmodel Hclient Hc Hllm.
    rewrite (find_none_existing _ _ Hnone), Hmodel, Hclient, Hc, Hllm.
    reflexivity.
  - cbn [snd]. intros e ->. reflexivity.
Qed.

(** X19.  When the constructor's loads succeed, only the first of the
    five paths that exists is loaded, the later ones are not looked at:
    the start is the indexing of that table on the collection just
    created, and fails when it fails. *)
Theorem startup_event_loads_first_existing (c : Collection)
    (before after : list string) (path : string) :
  data_paths = (before ++ path :: after)%list ->
  Forall (fun earlier => path_exists earlier = false) before ->
  path_exists path = true ->
  SentenceTransformer model_name_default = Ok tt ->
  chromadb_Client = Ok tt ->
  create_collection = Ok c ->
  pipeline "text-generation" "microsoft/DialoGPT-medium" = Ok tt ->
  startup_event = load_and_index_logs {| collection := c |} path.
Proof.
  intros Hsplit Hbefore Hpath Hmodel Hclient Hc Hllm. unfold startup_event.
  rewrite Hsplit, (find_first_existing _ _ _ _ Hbefore Hpath).
  rewrite init_outcome, Hmodel, Hclient, Hc, Hllm. cbn [bind bindM].
  destruct (load_and_index_logs _ path) as [trace r]. reflexivity.
Qed.
End StartupFacts.

(** ** The dashboard and the application *)

Lemma raise_for_status_cases (status_code : Z) :
  ((400 <= status_code < 600)%Z /\
   Dashboard.raise_for_status status_code
   = Some (Dashboard.HTTPError status_code)) \/
  (~ (400 <= status_code < 600)%Z /\
   Dashboard.raise_for_status status_code = None).
Proof.
  unfold Dashboard.raise_for_status.
  destruct (Z.leb_spec 400 status_code), (Z.ltb_spec status_code 600);
    cbn [andb]; [left | right | right | right]; split;
    trivial; lia.
Qed.

(** X20.  [query_api] shows an error exactly when the request failed, the
    status is between 400 and 599, or the body is not JSON; it gives no
    result exactly then and when the body is the JSON null; any other
    reply's JSON is returned as it is, whatever its status, with nothing
    shown. *)
Theorem query_api_result (send : Dashboard.Request -> Dashboard.Response)
    (query : string) :
  ((Dashboard.query_api send query).1 <> [] <->
   (exists error, send (Dashboard.PostQuery query)
                  = Dashboard.RequestFailed error) \/
   (exists status_code body,
      send (Dashboard.PostQuery query) = Dashboard.Replied status_code body /\
      ((400 <= status_code < 600)%Z \/
       exists text, body = Dashboard.NotJson text))) /\
  ((Dashboard.query_api send query).2 = None <->
   (Dashboard.query_api send query).1 <> [] \/
   exists status_code,
     send (Dashboard.PostQuery query)
     = Dashboard.Replied status_code (Dashboard.JsonBody Dashboard.JNull)) /\
  (forall value,
     (Dashboard.query_api send query).2 = Some value ->
     (Dashboard.query_api send query).1 = [] /\
     value <> Dashboard.JNull /\
     exists status_code,
       ~ (400 <= status_code < 600)%Z /\
       send (Dashboard.PostQuery query)
       = Dashboard.Replied status_code (Dashboard.JsonBody value)).
Proof.
  unfold Dashboard.query_api, Dashboard.result_of.
  destruct (send (Dashboard.PostQuery query)) as [status_code body|error].
  - destruct (raise_for_status_cases status_code) as [[Hs ->]|[Hs ->]].
    + cbn [fst snd]. split; [|split].
      * split; [intros _; right; eauto 6 | discriminate].
      * split; [intros _; left; discriminate | reflexivity].
      * discriminate.
    + destruct body as [value|text].
      * assert (Hno_error :
                  ([] : list Dashboard.Shown) <> [] <->
                  (exists error,
                     Dashboard.Replied status_code (Dashboard.JsonBody value)
                     = Dashboard.RequestFailed error) \/
                  (exists s b,
                     Dashboard.Replied status_code (Dashboard.JsonBody value)
                     = Dashboard.Replied s b /\
                     ((400 <= s < 600)%Z \/
                      exists text, b = Dashboard.NotJson text))).
        { split; [intros Hne; now contradiction Hne|].
          intros [[error He]|(s & b & [= <- <-] & [Hr|[t Ht]])];
            [discriminate He | contradiction | discriminate Ht]. }
        destruct value; cbn [Dashboard.response_json fst snd];
          (split; [exact Hno_error|]); split;
          try (split; [discriminate|];
               intros [Hne|[s He]];
               [now contradiction Hne | discriminate He]);
          try (intros v [= <-]; split; [reflexivity|];
               split; [discriminate|]; exists status_code;
               split; [exact Hs | reflexivity]).
        -- split; [intros _; right; now exists status_code | reflexivity].
        -- discriminate.
      * cbn [Dashboard.response_json fst snd]. split; [|split].
        -- split; [intros _; right | discriminate].
           exists status_code, (Dashboard.NotJson text). split; [reflexivity|].
           right. now exists text.
        -- split; [intros _; left; discriminate | reflexivity].
        -- discriminate.
  - cbn [fst snd]. split; [|split].
    + split; [intros _; left; eauto | discriminate].
    + split; [intros _; left; discriminate | reflexivity].
    + discriminate.
Qed.

Section DashboardFacts.
Context `{Backend}.

(** X21.  Whatever the dashboard receives as the result of a query from this
    application is an insight for that query, with at least one record:
    a result with no relevant logs never arrives. *)
Theorem dashboard_query_result_has_logs
    (rag_system : option IndustrialRAGSystem) (now q : string)
    (json : Dashboard.Json) :
  (Dashboard.query_api (serve rag_system now) q).2 = Some json ->
  exists body,
    json = Dashboard.JInsight body /\
    response_query body = q /\
    response_relevant_logs body <> [] /\
    (Dashboard.query_api (serve rag_system now) q).1 = [].
Proof.
  unfold Dashboard.query_api, serve.
  destruct rag_system as [rag|]; [|discriminate].
  pose proof (query_logs_cases rag now (QueryRequest_default q)) as Hc.
  cbn [QueryRequest_default query] in Hc.
  destruct (retrieve_relevant_logs rag q 5).2 as [[|log logs]|e];
    try (rewrite Hc; discriminate).
  destruct (generate_insight rag q (log :: logs)) as [insight|e];
    rewrite Hc; [|discriminate].
  intros [= <-]. eexists. split; [reflexivity|].
  cbn. repeat split. discriminate.
Qed.

(** X22.  The same for an anomaly reported from the dashboard, which always
    sends the severity WARNING: a result that arrives carries the label,
    and the records retrieved for the three words, at least one. *)
Theorem dashboard_anomaly_result_has_logs
    (rag_system : option IndustrialRAGSystem) (now eid atype : string)
    (json : Dashboard.Json) :
  (Dashboard.analyze_anomaly (serve rag_system now) eid atype).2
    = Some json ->
  exists rag body,
    rag_system = Some rag /\
    json = Dashboard.JInsight body /\
    response_query body = anomaly_label eid atype /\
    response_relevant_logs body <> [] /\
    (retrieve_relevant_logs rag (join " " [eid; atype; "WARNING"]) 5).2
      = Ok (response_relevant_logs body).
Proof.
  unfold Dashboard.analyze_anomaly, serve.
  destruct rag_system as [rag|]; [|discriminate].
  pose proof (respond_cases "Anomaly analysis failed" rag now
                (join " " [eid; atype; "WARNING"])
                (Some (anomaly_label eid atype))) as Hc.
  cbv zeta in Hc.
  change ((analyze_anomaly (Some rag) now
             {| equipment_id := eid; anomaly_type := atype;
                severity := Some "WARNING" |}).2)
    with ((respond "Anomaly analysis failed"
             (let! result :=
                query_system rag now (join " " [eid; atype; "WARNING"]) in
              lift (InsightResponse_init
                      (<["query" := FStr (anomaly_label eid atype)]>
                         result)))).2).
  destruct (retrieve_relevant_logs rag _ 5).2 as [[|log logs]|e] eqn:Hlogs;
    try (rewrite Hc; discriminate).
  destruct (generate_insight rag _ (log :: logs)) as [insight|e];
    rewrite Hc; [|discriminate].
  intros [= <-]. exists rag. eexists. split; [reflexivity|].
  split; [reflexivity|]. cbn [response_query response_relevant_logs].
  split; [reflexivity|]. split; [discriminate | exact Hlogs].
Qed.

(** X23.  The health check of the dashboard looks at the status alone: it
    holds for this application whether or not the instance is there,
    also when every query and every anomaly report is answered 503 and
    shown as an error. *)
Theorem dashboard_health_ignores_initialization
    (rag_system : option IndustrialRAGSystem) (now : string) :
  Dashboard.check_api_health (serve rag_system now) = true /\
  (rag_system = None ->
   forall q eid atype,
     Dashboard.query_api (serve rag_system now) q
     = ([Dashboard.StError (Dashboard.HTTPError 503)], None) /\
     Dashboard.analyze_anomaly (serve rag_system now) eid atype
     = ([Dashboard.StError (Dashboard.HTTPError 503)], None)).
Proof.
  split; [reflexivity|]. intros -> q eid atype. split; reflexivity.
Qed.
End DashboardFacts.

(** ** The properties above on concrete inputs *)

Lemma query_system_dictionary_witness :
  let result : gmap string Field :=
    <["query" := FStr "pump temperature issues"]>
      (<["relevant_logs" := FLogs []]>
         (<["insight" := FStr NO_LOGS_INSIGHT]> ∅)) in
  (query_system Demo.fresh_rag "2024-05-02T00:00:00"
     "pump temperature issues").2 = Ok result /\
  field_str result "query" = Some "pump temperature issues" /\
  exists logs,
    (retrieve_relevant_logs Demo.fresh_rag "pump temperature issues" 5).2
      = Ok logs /\
    field_logs result "relevant_logs" = Some logs /\
    (logs = [] <-> field_str result "insight" = Some NO_LOGS_INSIGHT) /\
    (logs = [] <-> result !! "timestamp" = None) /\
    (logs <> [] -> result !! "timestamp" = Some (FStr "2024-05-02T00:00:00")).
Proof.
  cbv zeta. split; [reflexivity|].
  exact (query_system_dictionary Demo.fresh_rag "2024-05-02T00:00:00"
           "pump temperature issues" _ eq_refl).
Defined.

Lemma query_logs_ok_body_witness :
  let request := QueryRequest_default "pump temperature issues" in
  let body :=
    {| response_query := "pump temperature issues";
       response_insight := VIBRATION_INSIGHT;
       response_relevant_logs := [Demo.nominal; Demo.shaking];
       response_timestamp := "2024-05-02T00:00:00" |} in
  exists rag,
    Some (Demo.rag_of [Demo.nominal; Demo.shaking]) = Some rag /\
    response_query body = query request /\
    response_timestamp body = "2024-05-02T00:00:00" /\
    response_relevant_logs body <> [] /\
    (retrieve_relevant_logs rag (query request) 5).2
      = Ok (response_relevant_logs body) /\
    generate_insight rag (query request) (response_relevant_logs body)
      = Ok (response_insight body) /\
    In (response_insight body) insights.
Proof.
  exact (query_logs_ok_body
           (Some (Demo.rag_of [Demo.nominal; Demo.shaking]))
           "2024-05-02T00:00:00"
           (QueryRequest_default "pump temperature issues")
           {| response_query := "pump temperature issues";
              response_insight := VIBRATION_INSIGHT;
              response_relevant_logs := [Demo.nominal; Demo.shaking];
              response_timestamp := "2024-05-02T00:00:00" |}
           eq_refl).
Defined.

Lemma load_and_index_logs_ids_distinct_witness :
  NoDup (ids (@index_batch (Demo.backend Demo.files)
                [Demo.hot; Demo.shaking; Demo.nominal]
                (map joined_fields [Demo.hot; Demo.shaking; Demo.nominal]))).
Proof.
  exact (proj1 (load_and_index_logs_ids_distinct Demo.empty_rag
                  "./data/industrial_logs.csv"
                  (@index_batch (Demo.backend Demo.files)
                     [Demo.hot; Demo.shaking; Demo.nominal]
                     (map joined_fields
                        [Demo.hot; Demo.shaking; Demo.nominal]))
                  (or_intror (or_introl eq_refl)))).
Defined.

Lemma load_and_index_logs_ids_collide_witness :
  ids (@index_batch (Demo.backend Demo.files) [Demo.undated]
         (map joined_fields [Demo.undated]))
  `prefix_of`
  ids (@index_batch (Demo.backend Demo.files)
         [Demo.hot; Demo.shaking; Demo.nominal]
         (map joined_fields [Demo.hot; Demo.shaking; Demo.nominal])).
Proof.
  apply (load_and_index_logs_ids_collide
           Demo.empty_rag (Demo.rag_of [Demo.nominal])
           "undated.csv" "./data/industrial_logs.csv").
  - right. left. reflexivity.
  - right. left. reflexivity.
  - simpl. lia.
Defined.

Lemma load_and_index_logs_names_first_missing_witness :
  load_and_index_logs Demo.empty_rag "untyped.csv"
  = ([], Raise (KeyError "equipment_type")).
Proof.
  apply (load_and_index_logs_names_first_missing Demo.empty_rag
           "untyped.csv" [] [] Demo.untyped
           ["equipment_id"] ["severity"; "message"] "equipment_type").
  - reflexivity.
  - constructor.
  - reflexivity.
  - apply has_fieldsb_has_fields. vm_compute. reflexivity.
  - reflexivity.
Defined.

Lemma startup_event_without_data_witness :
  @startup_event (Demo.backend ∅) Demo.loaders = ([], Ok Demo.fresh_rag).
Proof.
  apply (proj1 (@startup_event_without_data (Demo.backend ∅) Demo.loaders
                  ([] : @Collection (Demo.backend ∅)))).
  - repeat constructor.
  - reflexivity.
  - reflexivity.
  - reflexivity.
  - reflexivity.
Defined.

Lemma startup_event_loads_first_existing_witness :
  @startup_event (Demo.backend Demo.files) Demo.loaders
  = load_and_index_logs Demo.empty_rag "./data/industrial_logs.csv".
Proof.
  apply (@startup_event_loads_first_existing (Demo.backend Demo.files)
           Demo.loaders
           ([] : @Collection (Demo.backend Demo.files))
           ["C:\Users\USER\Desktop\DATA SCIENCE\Industrial_llm\data\industrial_logs.csv";
            "industrial_logs.csv"; "data\industrial_logs.csv";
            "/app/data/industrial_logs.csv"]
           []).
  - reflexivity.
  - repeat constructor.
  - reflexivity.
  - reflexivity.
  - reflexivity.
  - reflexivity.
  - reflexivity.
Defined.

Lemma dashboard_query_result_has_logs_witness :
  exists body,
    Dashboard.JInsight
      {| response_query := "pump temperature issues";
         response_insight := VIBRATION_INSIGHT;
         response_relevant_logs := [Demo.nominal; Demo.shaking];
         response_timestamp := "2024-05-02T00:00:00" |}
    = Dashboard.JInsight body /\
    response_query body = "pump temperature issues" /\
    response_relevant_logs body <> [] /\
    (Dashboard.query_api
       (serve (Some (Demo.rag_of [Demo.nominal; Demo.shaking]))
          "2024-05-02T00:00:00") "pump temperature issues").1 = [].
Proof.
  exact (dashboard_query_result_has_logs
           (Some (Demo.rag_of [Demo.nominal; Demo.shaking]))
           "2024-05-02T00:00:00" "pump temperature issues" _ eq_refl).
Defined.

Lemma dashboard_anomaly_result_has_logs_witness :
  exists rag body,
    Some (Demo.rag_of [Demo.nominal; Demo.shaking]) = Some rag /\
    Dashboard.JInsight
      {| response_query := "Anomaly analysis for pump_01: bearing_wear";
         response_insight := VIBRATION_INSIGHT;
         response_relevant_logs := [Demo.nominal; Demo.shaking];
         response_timestamp := "2024-05-02T00:00:00" |}
    = Dashboard.JInsight body /\
    response_query body = anomaly_label "pump_01" "bearing_wear" /\
    response_relevant_logs body <> [] /\
    (retrieve_relevant_logs rag
       (join " " ["pump_01"; "bearing_wear"; "WARNING"]) 5).2
      = Ok (response_relevant_logs body).
Proof.
  exact (dashboard_anomaly_result_has_logs
           (Some (Demo.rag_of [Demo.nominal; Demo.shaking]))
           "2024-05-02T00:00:00" "pump_01" "bearing_wear" _ eq_refl).
Defined.
